(** * LAVFUtils: stream descriptions and the [ufile:] protocol

    A shallow embedding of [demuxer/Demuxers/LAVFUtils.cpp]:
    - [get_bit_rate], [get_stream_language], [get_codec_name],
      [show_sample_fmt] and [lavf_describe_stream], which build the one-line
      description of an elementary stream;
    - [ufile_open], [ufile_read], [ufile_write], [ufile_seek], [ufile_close],
      [ufile_get_handle], the URL protocol over the C runtime's descriptors.

    Conventions of the embedding.
    - A C [int] is a [Z]; where the source multiplies two of them the
      32-bit wrap-around is written out ([int32]).
    - A [const char *] that the source tests against [NULL] is a [cstr]
      ([None] is [NULL]); a [char] array is a [string].
    - A call that traps (a read through [NULL], the invalid parameter handler
      of the secure CRT) ends the computation with a [Fault].
    - An index past the end of [nice_codec_names] reads the memory that
      follows the array, whatever it holds ([beyond_nice_codec_names]).
    - libavcodec, libavformat and libavutil, the helpers that other files of
      the repository define, and the process (allocator, conversion to wide
      characters, memory layout) are the fields of the classes [Libav],
      [Helpers] and [Platform]; the C runtime's descriptors are [CRT]. *)

From Stdlib Require Import ZArith List String Ascii Bool Lia.
From Stdlib Require Import Numbers.DecimalString.
Import ListNotations.

Open Scope Z_scope.

(** ** C data *)

(** A nullable pointer to a NUL-terminated string. *)
Definition cstr := option string.

Definition is_null (s : cstr) : bool :=
  match s with None => true | Some _ => false end.

(** Ways in which a call of the source does not return. *)
Inductive fault : Type :=
| NullDereference    (* read through a NULL pointer *)
| InvalidParameter.  (* secure CRT: buffer too small for the formatted text *)

Inductive result (A : Type) : Type :=
| Ok (a : A)
| Fault (f : fault).
Arguments Ok {A} a.
Arguments Fault {A} f.

Definition bind {A B : Type} (r : result A) (k : A -> result B) : result B :=
  match r with
  | Ok a => k a
  | Fault f => Fault f
  end.

Notation "x <- r ;; k" := (bind r (fun x => k))
  (at level 61, r at next level, right associativity).

(** Reduction of a mathematical integer to a 32-bit two's complement [int]. *)
Definition int32 (z : Z) : Z := (z + 2 ^ 31) mod 2 ^ 32 - 2 ^ 31.

(** [strlen]. *)
Definition strlen (s : string) : Z := Z.of_nat (String.length s).

(** [strncmp(s1, s2, n)] on two strings: the difference of the first pair of
    bytes that differ among the first [n], the terminator included. *)
Fixpoint strncmp_str (s1 s2 : string) (n : nat) : Z :=
  match n with
  | O => 0
  | S n' =>
      match s1, s2 with
      | EmptyString, EmptyString => 0
      | EmptyString, String c2 _ => 0 - Z.of_N (N_of_ascii c2)
      | String c1 _, EmptyString => Z.of_N (N_of_ascii c1)
      | String c1 t1, String c2 t2 =>
          if Ascii.eqb c1 c2 then strncmp_str t1 t2 n'
          else Z.of_N (N_of_ascii c1) - Z.of_N (N_of_ascii c2)
      end
  end.

(** [strncmp] reads through both pointers: a NULL argument traps. *)
Definition strncmp (s1 s2 : cstr) (n : nat) : result Z :=
  match s1, s2 with
  | Some a, Some b => Ok (strncmp_str a b n)
  | _, _ => Fault NullDereference
  end.

(** Decimal text of an [int], as [operator<<] of a stream prints it. *)
Definition string_of_int (z : Z) : string :=
  NilEmpty.string_of_int (Z.to_int z).

(** ** printf conversions *)

Definition hex_digit (d : Z) : ascii :=
  if d <? 10 then ascii_of_N (Z.to_N (48 + d))
  else ascii_of_N (Z.to_N (55 + d)).

(** Uppercase hexadecimal digits of [n], most significant first; [fuel]
    bounds the number of digits (8 for an [unsigned int]). *)
Fixpoint hex_digits (fuel : nat) (n : Z) : string :=
  match fuel with
  | O => EmptyString
  | S fuel' =>
      if n <? 16 then String (hex_digit n) EmptyString
      else (hex_digits fuel' (n / 16) ++ String (hex_digit (n mod 16)) EmptyString)%string
  end.

Fixpoint zeros (n : nat) : string :=
  match n with
  | O => EmptyString
  | S n' => String "0"%char (zeros n')
  end.

(** ["%04X"] of an [unsigned int]: at least four digits, padded with zeros. *)
Definition fmt_04X (n : Z) : string :=
  let d := hex_digits 8 n in
  (zeros (4 - String.length d) ++ d)%string.

(** ["%.1f"] of [n / 10.0] for an [int] n: the quotient is a whole number of
    tenths, so the conversion prints it exactly. *)
Definition fmt_1f_tenths (n : Z) : string :=
  let sign := if n <? 0 then "-"%string else ""%string in
  let units := string_of_int (Z.abs n / 10) in
  let tenth := string_of_int (Z.abs n mod 10) in
  (sign ++ units ++ "." ++ tenth)%string.

(** [sprintf_s] into a [char] array of [size] bytes: the text and its
    terminator must fit, otherwise the invalid parameter handler runs. *)
Definition sprintf_s (size : nat) (text : string) : result string :=
  if (String.length text <? size)%nat then Ok text else Fault InvalidParameter.

(** ** Measures used in the statements *)

(** The levels that pass the guard and are above -100. *)
Definition short_levels : list Z :=
  map (fun k => Z.of_nat k - 99) (seq 0 1099).

(** The value that a text of hexadecimal digits denotes, and whether a
    character is one of [0-9A-F]. *)
Definition hex_digit_value (c : ascii) : Z :=
  let n := Z.of_N (N_of_ascii c) in
  if n <? 58 then n - 48 else n - 55.

Fixpoint hex_value_from (acc : Z) (s : string) : Z :=
  match s with
  | EmptyString => acc
  | String c rest => hex_value_from (16 * acc + hex_digit_value c) rest
  end.

Definition hex_value (s : string) : Z := hex_value_from 0 s.

Definition is_upper_hex (c : ascii) : bool :=
  let n := N_of_ascii c in
  ((48 <=? n) && (n <=? 57) || (65 <=? n) && (n <=? 70))%N.

Fixpoint all_upper_hex (s : string) : bool :=
  match s with
  | EmptyString => true
  | String c rest => is_upper_hex c && all_upper_hex rest
  end.

(** [up]: ASCII lower-case letters to upper case, every other byte kept. *)
Definition up_char (c : ascii) : ascii :=
  let n := N_of_ascii c in
  if (n <=? 122)%N && (97 <=? n)%N then ascii_of_N (n - 32) else c.

Fixpoint up (str : string) : string :=
  match str with
  | EmptyString => EmptyString
  | String c rest => String (up_char c) (up rest)
  end.

(** ** Structures of libavcodec and libavformat that the source reads *)

Inductive AVMediaType : Type :=
| AVMEDIA_TYPE_UNKNOWN
| AVMEDIA_TYPE_VIDEO
| AVMEDIA_TYPE_AUDIO
| AVMEDIA_TYPE_DATA
| AVMEDIA_TYPE_SUBTITLE
| AVMEDIA_TYPE_ATTACHMENT
| AVMEDIA_TYPE_NB.

(** [enum CodecID]; the source also compares it with integer bounds. *)
Definition CodecID := Z.

Module AVCodec.
Record t : Type := { name : string }.
End AVCodec.

Record AVCodecContext : Type := {
  codec_type : AVMediaType;
  codec_id : CodecID;
  opaque : option CodecID;   (* [void *], read as a [CodecID *] for subtitles *)
  bit_rate : Z;
  sample_rate : Z;
  channels : Z;
  channel_layout : Z;
  sample_fmt : Z;
  profile : Z;
  level : Z;
  codec_name : string;       (* [char codec_name[32]] *)
  codec_tag : Z;             (* [unsigned int] *)
  pix_fmt : Z;
  width : Z;
  height : Z
}.

(** No value occurs twice in the list. *)
Fixpoint distinct (l : list Z) : bool :=
  match l with
  | [] => true
  | x :: rest => negb (existsb (Z.eqb x) rest) && distinct rest
  end.

(** [struct s_codec_names]. *)
Record s_codec_names : Type := { id : CodecID; name : cstr }.

(** What the source takes from libavcodec, libavformat and libavutil: the
    enumerators and macros it names, and the functions it calls. *)
Class Libav : Type := {
  CODEC_ID_H264 : CodecID;
  CODEC_ID_DTS : CodecID;
  CODEC_ID_VC1 : CodecID;
  CODEC_ID_MPEG2VIDEO : CodecID;
  CODEC_ID_TRUEHD : CodecID;
  CODEC_ID_AC3 : CodecID;
  CODEC_ID_EAC3 : CodecID;
  CODEC_ID_AAC_LATM : CodecID;
  CODEC_ID_TEXT : CodecID;
  CODEC_ID_SRT : CodecID;
  CODEC_ID_HDMV_PGS_SUBTITLE : CodecID;
  CODEC_ID_DVD_SUBTITLE : CodecID;
  CODEC_ID_DVB_SUBTITLE : CodecID;
  CODEC_ID_SSA : CodecID;
  CODEC_ID_XSUB : CodecID;
  CODEC_ID_MLP : CodecID;
  CODEC_ID_FLAC : CodecID;
  CODEC_ID_WMALOSSLESS : CodecID;
  CODEC_ID_WAVPACK : CodecID;
  CODEC_ID_MP4ALS : CodecID;
  CODEC_ID_ALAC : CodecID;
  (* enumerators of one [enum] that the header numbers one after another *)
  CodecID_distinct :
    distinct [CODEC_ID_H264; CODEC_ID_DTS;
              CODEC_ID_VC1; CODEC_ID_MPEG2VIDEO; CODEC_ID_TRUEHD; CODEC_ID_AC3;
              CODEC_ID_EAC3; CODEC_ID_AAC_LATM; CODEC_ID_TEXT; CODEC_ID_SRT;
              CODEC_ID_HDMV_PGS_SUBTITLE; CODEC_ID_DVD_SUBTITLE;
              CODEC_ID_DVB_SUBTITLE; CODEC_ID_SSA; CODEC_ID_XSUB] = true;
  FF_LEVEL_UNKNOWN : Z;
  PIX_FMT_NONE : Z;
  AV_SAMPLE_FMT_FLT : Z;
  AV_SAMPLE_FMT_DBL : Z;
  AV_DISPOSITION_DEFAULT : Z;
  AV_DISPOSITION_FORCED : Z;
  AV_DISPOSITION_HEARING_IMPAIRED : Z;
  AVMetadata : Type;
  (* [av_metadata_get(m, key, NULL, 0)]: the value of the tag found, if any *)
  av_metadata_get : AVMetadata -> string -> option string;
  av_get_bits_per_sample : CodecID -> Z;
  avcodec_find_decoder : CodecID -> option AVCodec.t;
  av_get_profile_name : AVCodec.t -> Z -> cstr;
  (* the text left in [buf] *)
  av_get_codec_tag_string : Z -> string;
  avcodec_get_pix_fmt_name : Z -> cstr;
  (* the text left in [buf], from the channel count and the layout mask *)
  av_get_channel_layout_string : Z -> Z -> string
}.

(** Helpers of the repository that other files define. *)
Class Helpers : Type := {
  get_bits_per_sample : AVCodecContext -> Z;
  ProbeLangForLanguage : string -> string
}.

(** The two targets the filters are built for. *)
Inductive target : Type := x86 | x64.

(** [sizeof(struct s_codec_names)]: a 4-byte [enum] and a pointer, aligned. *)
Definition sizeof_s_codec_names (t : target) : nat :=
  match t with x86 => 8%nat | x64 => 16%nat end.

(** The process the code runs in. *)
Class Platform : Type := {
  arch : target;
  (* the memory that follows the array [nice_codec_names], read as further
     elements of it: element [13 + k] of the array is [beyond k] *)
  beyond_nice_codec_names : nat -> s_codec_names;
  (* whether [CoTaskMemAlloc(cb)] returns a block *)
  CoTaskMemAlloc : Z -> bool;
  (* [MultiByteToWideChar(CodePage, dwFlags, str, cbMultiByte, buf, cchWideChar)]:
     the value returned and the wide characters left in [buf] *)
  MultiByteToWideChar : Z -> Z -> string -> Z -> Z -> Z * list Z
}.

Definition CP_UTF8 : Z := 65001.
Definition MB_ERR_INVALID_CHARS : Z := 8.
Definition sizeof_WCHAR : Z := 2.

Definition HRESULT := Z.
Definition S_OK : HRESULT := 0.
Definition E_POINTER : HRESULT := int32 0x80004003.

(** ** The stream description *)

Section Description.
Context `{Libav} `{Helpers} `{Platform}.

Record AVStream : Type := {
  index : Z;
  codec : AVCodecContext;
  metadata : AVMetadata;
  language : cstr;
  disposition : Z
}.

Definition get_bit_rate (ctx : AVCodecContext) : Z :=
  match codec_type ctx with
  | AVMEDIA_TYPE_VIDEO
  | AVMEDIA_TYPE_DATA
  | AVMEDIA_TYPE_SUBTITLE
  | AVMEDIA_TYPE_ATTACHMENT => bit_rate ctx
  | AVMEDIA_TYPE_AUDIO =>
      let bits_per_sample := av_get_bits_per_sample (codec_id ctx) in
      if bits_per_sample =? 0 then bit_rate ctx
      else int32 (int32 (sample_rate ctx * channels ctx) * bits_per_sample)
  | _ => 0
  end.

(** The value of [lang] in [get_stream_language] before it is compared
    with ["und"]: the metadata entry first, the field of the stream second. *)
Definition stream_language_candidate (pStream : AVStream) : cstr :=
  match av_metadata_get (metadata pStream) "language" with
  | Some value => Some value
  | None =>
      match language pStream with
      | Some l => if 0 <? strlen l then Some l else None
      | None => None
      end
  end.

Definition get_stream_language (pStream : AVStream) : result cstr :=
  let lang := stream_language_candidate pStream in
  (* Don't bother with undetermined languages (fallback value in some
     containers) *)
  c <- strncmp lang (Some "und"%string) 3 ;;
  if negb (c =? 0) then Ok lang else Ok None.

Definition nice_codec_names : list s_codec_names := [
  (* Video *)
  {| id := CODEC_ID_VC1; name := Some "VC-1"%string |};
  {| id := CODEC_ID_MPEG2VIDEO; name := Some "MPEG-2"%string |};
  (* Audio *)
  {| id := CODEC_ID_TRUEHD; name := Some "TrueHD"%string |};
  {| id := CODEC_ID_AC3; name := Some "AC-3"%string |};
  {| id := CODEC_ID_EAC3; name := Some "E-AC3"%string |};
  {| id := CODEC_ID_AAC_LATM; name := Some "AAC (LATM)"%string |};
  (* Subs *)
  {| id := CODEC_ID_TEXT; name := Some "Text"%string |};
  {| id := CODEC_ID_SRT; name := Some "SRT"%string |};
  {| id := CODEC_ID_HDMV_PGS_SUBTITLE; name := Some "PGS"%string |};
  {| id := CODEC_ID_DVD_SUBTITLE; name := Some "DVD/VOB"%string |};
  {| id := CODEC_ID_DVB_SUBTITLE; name := Some "DVB"%string |};
  {| id := CODEC_ID_SSA; name := Some "SSA/ASS"%string |};
  {| id := CODEC_ID_XSUB; name := Some "XSUB"%string |}
].

(** [sizeof(nice_codec_names)], a number of bytes. *)
Definition sizeof_nice_codec_names : nat :=
  (List.length nice_codec_names * sizeof_s_codec_names arch)%nat.

(** The object that the expression [nice_codec_names[i]] reads: element [i]
    of the array, or what lies behind the array when [i] is past its end. *)
Definition nice_codec_names_at (i : nat) : s_codec_names :=
  match nth_error nice_codec_names i with
  | Some e => e
  | None => beyond_nice_codec_names (i - List.length nice_codec_names)
  end.

(** The loop [for (i; i < bound; ++i)] of [get_codec_name] with [count]
    iterations left: the indices it reads, in order, and [nice_name]. *)
Fixpoint nice_name_loop (id0 : CodecID) (i count : nat) : list nat * cstr :=
  match count with
  | O => ([], None)
  | S count' =>
      let e := nice_codec_names_at i in
      if id e =? id0 then ([i], name e)
      else
        let (reads, nice_name) := nice_name_loop id0 (S i) count' in
        (i :: reads, nice_name)
  end.

Definition nice_name_scan (id0 : CodecID) : list nat * cstr :=
  nice_name_loop id0 0 sizeof_nice_codec_names.

(** The first line of [get_codec_name]: the identity of a subtitle codec
    is read through [opaque]. *)
Definition codec_identity (pCodecCtx : AVCodecContext) : result CodecID :=
  match codec_type pCodecCtx with
  | AVMEDIA_TYPE_SUBTITLE =>
      match opaque pCodecCtx with
      | Some v => Ok v
      | None => Fault NullDereference
      end
  | _ => Ok (codec_id pCodecCtx)
  end.

(** [profile] of [get_codec_name], from the decoder [p] when there is one. *)
Definition codec_profile_name (p : option AVCodec.t)
    (pCodecCtx : AVCodecContext) : cstr :=
  match p with
  | Some c => av_get_profile_name c (profile pCodecCtx)
  | None => None
  end.

Definition get_codec_name (pCodecCtx : AVCodecContext) : result string :=
  id0 <- codec_identity pCodecCtx ;;
  (* Grab the codec *)
  let p := avcodec_find_decoder id0 in
  let profile_name := codec_profile_name p pCodecCtx in
  let nice_name := snd (nice_name_scan id0) in
  match id0 =? CODEC_ID_H264, profile_name with
  | true, Some prof =>
      if negb (level pCodecCtx =? 0)
         && negb (level pCodecCtx =? FF_LEVEL_UNKNOWN)
         && (level pCodecCtx <? 1000)
      then
        l_buf <- sprintf_s 5 (fmt_1f_tenths (level pCodecCtx)) ;;
        Ok ("H.264 " ++ prof ++ " L" ++ l_buf)%string
      else Ok ("H.264 " ++ prof)%string
  | _, _ =>
  match id0 =? CODEC_ID_DTS, profile_name with
  | true, Some prof => Ok prof
  | _, _ =>
  match nice_name with
  | Some n => Ok n
  | None =>
  match p with
  | Some c => Ok (up (AVCodec.name c))
  | None =>
      if negb (String.eqb (codec_name pCodecCtx) "") then
        Ok (up (codec_name pCodecCtx))
      else
        (* output avi tags *)
        let tag := av_get_codec_tag_string (codec_tag pCodecCtx) in
        buf <- sprintf_s 32 ("0x" ++ fmt_04X (codec_tag pCodecCtx))%string ;;
        Ok (tag ++ " / " ++ buf)%string
  end end end end.

Definition show_sample_fmt (codec_id : CodecID) : bool :=
  (* PCM Codecs *)
  if (0x10000 <=? codec_id) && (codec_id <? 0x12000) then true
  (* Lossless Codecs *)
  else if (codec_id =? CODEC_ID_MLP)
       || (codec_id =? CODEC_ID_TRUEHD)
       || (codec_id =? CODEC_ID_FLAC)
       || (codec_id =? CODEC_ID_WMALOSSLESS)
       || (codec_id =? CODEC_ID_WAVPACK)
       || (codec_id =? CODEC_ID_MP4ALS)
       || (codec_id =? CODEC_ID_ALAC) then true
  else false.

(** [flags & bit], as a condition. *)
Definition has_flag (flags bit : Z) : bool := negb (Z.land flags bit =? 0).

(** The title and language segment, which the source writes out once for
    each of the three media types. *)
Definition title_language (title lang : cstr) (sLanguage : string) : string :=
  match title, lang with
  | Some t, Some l => (t ++ " [" ++ l ++ "] (")%string
  | Some t, None => (t ++ " (")%string
  | None, Some _ => (sLanguage ++ " (")%string
  | None, None => ""%string
  end.

(** The closing tag, written when a title or a language opened one. *)
Definition closing_tag (title lang : cstr) : string :=
  if negb (is_null title) || negb (is_null lang) then ")"%string else ""%string.

(** [", " << (bitrate / 1000) << " kb/s"] when the bit rate is positive. *)
Definition bitrate_text (bitrate : Z) : string :=
  if 0 <? bitrate
  then (", " ++ string_of_int (Z.quot bitrate 1000) ++ " kb/s")%string
  else ""%string.

(** [lang] and [sLanguage] of [lavf_describe_stream]. *)
Definition stream_language_names (pStream : AVStream) : result (cstr * string) :=
  lang <- get_stream_language pStream ;;
  match lang with
  | Some l =>
      let sLanguage := ProbeLangForLanguage l in
      if String.eqb sLanguage "" then Ok (lang, l) else Ok (lang, sLanguage)
  | None => Ok (lang, ""%string)
  end.

(** The text that [lavf_describe_stream] collects in [buf]. *)
Definition describe_text (pStream : AVStream) : result string :=
  let enc := codec pStream in
  codec_name <- get_codec_name enc ;;
  names <- stream_language_names pStream ;;
  let (lang, sLanguage) := names in
  let title := av_metadata_get (metadata pStream) "title" in
  let bitrate := get_bit_rate enc in
  match codec_type enc with
  | AVMEDIA_TYPE_VIDEO =>
      (* Pixel Format *)
      pix <- (if negb (pix_fmt enc =? PIX_FMT_NONE) then
                match avcodec_get_pix_fmt_name (pix_fmt enc) with
                | Some n => Ok (", " ++ n)%string
                | None => Fault NullDereference
                end
              else Ok ""%string) ;;
      (* Dimensions *)
      let dim := if negb (width enc =? 0)
                 then (", " ++ string_of_int (width enc) ++ "x"
                            ++ string_of_int (height enc))%string
                 else ""%string in
      Ok ("V: " ++ title_language title lang sLanguage ++ codec_name ++ pix
                ++ dim ++ bitrate_text bitrate ++ closing_tag title lang)%string
  | AVMEDIA_TYPE_AUDIO =>
      (* Sample Rate *)
      let rate := if negb (sample_rate enc =? 0)
                  then (", " ++ string_of_int (sample_rate enc) ++ " Hz")%string
                  else ""%string in
      (* Get channel layout *)
      let channel :=
        av_get_channel_layout_string (channels enc) (channel_layout enc) in
      (* Sample Format *)
      let fmt :=
        if show_sample_fmt (codec_id enc) && negb (get_bits_per_sample enc =? 0)
        then
          let kind := if (sample_fmt enc =? AV_SAMPLE_FMT_FLT)
                         || (sample_fmt enc =? AV_SAMPLE_FMT_DBL)
                      then ", fp"%string else ", s"%string in
          (kind ++ string_of_int (get_bits_per_sample enc))%string
        else ""%string in
      (* Default tag *)
      let dflt := if has_flag (disposition pStream) AV_DISPOSITION_DEFAULT
                  then " [default]"%string else ""%string in
      Ok ("A: " ++ title_language title lang sLanguage ++ codec_name ++ rate
                ++ ", " ++ channel ++ fmt ++ bitrate_text bitrate
                ++ closing_tag title lang ++ dflt)%string
  | AVMEDIA_TYPE_SUBTITLE =>
      (* Subtitle flags *)
      let forced := has_flag (disposition pStream) AV_DISPOSITION_FORCED in
      let hearing :=
        has_flag (disposition pStream) AV_DISPOSITION_HEARING_IMPAIRED in
      let flags :=
        if forced || hearing then
          let f := if forced then "forced"%string else ""%string in
          let sep := if forced then ", "%string else ""%string in
          let h := if hearing then (sep ++ "hearing impaired")%string
                   else ""%string in
          (" [" ++ f ++ h ++ "]")%string
        else ""%string in
      Ok ("S: " ++ title_language title lang sLanguage ++ codec_name
                ++ closing_tag title lang ++ flags)%string
  | _ => Ok ("Unknown: Stream #" ++ string_of_int (index pStream))%string
  end.

(** [lavf_describe_stream(pStream, ppszName)]: [pStream] is [None] for a NULL
    stream, [ppszName] says whether the output pointer is non-NULL. The
    result is the [HRESULT] and what [*ppszName] holds afterwards: [None]
    for NULL, else the wide characters written to the block. *)
Definition lavf_describe_stream (pStream : option AVStream) (ppszName : bool)
  : result (HRESULT * option (list Z)) :=
  match pStream with
  | None => Ok (E_POINTER, None)
  | Some stream =>
      if negb ppszName then Ok (E_POINTER, None)
      else
        info <- describe_text stream ;;
        let len := strlen info + 1 in
        if CoTaskMemAlloc (len * sizeof_WCHAR) then
          Ok (S_OK, Some (snd (MultiByteToWideChar CP_UTF8 0 info (-1) len)))
        else
          (* the conversion is handed a NULL buffer and writes nothing *)
          Ok (S_OK, None)
  end.

End Description.

(** ** The [ufile:] protocol *)

(** The C runtime of the host, as far as the protocol uses it: a table of
    open descriptors, each with the bytes of its file and a position, and
    [errno]. The constants are those of the runtime's headers. *)
Module CRT.

Record open_file : Type := { contents : list Z; offset : Z }.

Record t : Type := { fds : Z -> option open_file; errno : Z }.

Definition ENOENT : Z := 2.
Definition EBADF : Z := 9.
Definition EINVAL : Z := 22.

Definition _O_RDONLY : Z := 0x0000.
Definition _O_WRONLY : Z := 0x0001.
Definition _O_RDWR : Z := 0x0002.
Definition _O_CREAT : Z := 0x0100.
Definition _O_TRUNC : Z := 0x0200.
Definition O_BINARY : Z := 0x8000.
Definition _SH_DENYNO : Z := 0x40.
Definition _S_IREAD : Z := 0x0100.
Definition _S_IWRITE : Z := 0x0080.

Definition SEEK_SET : Z := 0.
Definition SEEK_CUR : Z := 1.
Definition SEEK_END : Z := 2.

Definition fail (e : Z) (st : t) : t := {| fds := fds st; errno := e |}.

Definition update (fd : Z) (f : option open_file) (st : t) : t :=
  {| fds := fun fd' => if fd' =? fd then f else fds st fd';
     errno := errno st |}.

Definition size (f : open_file) : Z := Z.of_nat (List.length (contents f)).

(** [_read(fd, buf, size)]: the value returned, the bytes stored in [buf]. *)
Definition _read (fd size0 : Z) (st : t) : Z * list Z * t :=
  match fds st fd with
  | None => (-1, [], fail EBADF st)
  | Some f =>
      if size0 <? 0 then (-1, [], fail EINVAL st)
      else
        let data := firstn (Z.to_nat size0)
                           (skipn (Z.to_nat (offset f)) (contents f)) in
        let n := Z.of_nat (List.length data) in
        (n, data,
         update fd (Some {| contents := contents f;
                            offset := offset f + n |}) st)
  end.

(** [_write(fd, buf, size)]: a gap before the position is filled with 0. *)
Definition _write (fd : Z) (buf : list Z) (size0 : Z) (st : t) : Z * t :=
  match fds st fd with
  | None => (-1, fail EBADF st)
  | Some f =>
      if size0 <? 0 then (-1, fail EINVAL st)
      else
        let data := firstn (Z.to_nat size0) buf in
        let n := Z.of_nat (List.length data) in
        let pos := Z.to_nat (offset f) in
        let before := firstn pos (contents f) in
        let gap := repeat 0 (pos - List.length before) in
        let after := skipn (pos + List.length data) (contents f) in
        (n, update fd (Some {| contents := before ++ gap ++ data ++ after;
                               offset := offset f + n |}) st)
  end.

(** [_lseeki64(fd, offset, origin)]. *)
Definition _lseeki64 (fd pos whence : Z) (st : t) : Z * t :=
  match fds st fd with
  | None => (-1, fail EBADF st)
  | Some f =>
      let base :=
        if whence =? SEEK_SET then Some 0
        else if whence =? SEEK_CUR then Some (offset f)
        else if whence =? SEEK_END then Some (size f)
        else None in
      match base with
      | None => (-1, fail EINVAL st)
      | Some b =>
          if (b + pos <? 0) || (2 ^ 63 <=? b + pos)
          then (-1, fail EINVAL st)
          else (b + pos,
                update fd (Some {| contents := contents f;
                                   offset := b + pos |}) st)
      end
  end.

(** [_fstat64(fd, &st)]: the value returned and [st.st_size]. *)
Definition _fstat64 (fd : Z) (st : t) : Z * Z * t :=
  match fds st fd with
  | None => (-1, 0, fail EBADF st)
  | Some f => (0, size f, st)
  end.

(** [_close(fd)]. *)
Definition _close (fd : Z) (st : t) : Z * t :=
  match fds st fd with
  | None => (-1, fail EBADF st)
  | Some _ => (0, update fd None st)
  end.

End CRT.

(** [URLContext], of which the protocol uses [priv_data] alone. *)
Record URLContext : Type := { priv_data : Z }.

(** [AVERROR(e)] of libavutil on a host whose error codes are positive. *)
Definition AVERROR (e : Z) : Z := - e.

(** [av_strstart(str, pfx, &ptr)] of libavutil: the rest of [str] when it
    starts with [pfx]. *)
Fixpoint av_strstart (str pfx : string) : option string :=
  match pfx with
  | EmptyString => Some str
  | String p pfx' =>
      match str with
      | String c str' => if Ascii.eqb c p then av_strstart str' pfx' else None
      | EmptyString => None
      end
  end.

Section Protocol.
Context `{Platform}.

(** Macros of [libavformat/avio.h]. *)
Variables URL_RDWR URL_WRONLY AVSEEK_SIZE : Z.

(** [_wsopen_s(&fd, path, oflag, shflag, pmode)] of the host: the descriptor
    stored in [fd] ([-1] when the call fails) and the runtime afterwards. *)
Variable _wsopen_s : list Z -> Z -> Z -> Z -> CRT.t -> Z * CRT.t.

(** The [access] that [ufile_open] computes from [flags]. *)
Definition ufile_access (flags : Z) : Z :=
  let access :=
    if has_flag flags URL_RDWR then
      Z.lor (Z.lor CRT._O_CREAT CRT._O_TRUNC) CRT._O_RDWR
    else if has_flag flags URL_WRONLY then
      Z.lor (Z.lor CRT._O_CREAT CRT._O_TRUNC) CRT._O_WRONLY
    else CRT._O_RDONLY in
  Z.lor access CRT.O_BINARY.

Definition ufile_open (h : URLContext) (filename : string) (flags : Z)
    (st : CRT.t) : Z * URLContext * CRT.t :=
  let filename :=
    match av_strstart filename "ufile:" with
    | Some rest => rest
    | None => filename
    end in
  (* 4096 should be enough for a path name *)
  let (nChars, wfilename) :=
    MultiByteToWideChar CP_UTF8 MB_ERR_INVALID_CHARS filename (-1) 4096 in
  if nChars <=? 0 then (AVERROR CRT.ENOENT, h, st)
  else
    let (fd, st') :=
      _wsopen_s wfilename (ufile_access flags) CRT._SH_DENYNO
                (Z.lor CRT._S_IREAD CRT._S_IWRITE) st in
    if fd =? -1 then (AVERROR (CRT.errno st'), h, st')
    else (0, {| priv_data := fd |}, st').

(** [(int) h->priv_data]. *)
Definition handle_fd (h : URLContext) : Z := int32 (priv_data h).

Definition ufile_read (h : URLContext) (size : Z) (st : CRT.t)
  : Z * list Z * CRT.t :=
  CRT._read (handle_fd h) size st.

Definition ufile_write (h : URLContext) (buf : list Z) (size : Z) (st : CRT.t)
  : Z * CRT.t :=
  CRT._write (handle_fd h) buf size st.

Definition ufile_get_handle (h : URLContext) : Z := handle_fd h.

Definition ufile_seek (h : URLContext) (pos whence : Z) (st : CRT.t)
  : Z * CRT.t :=
  let fd := handle_fd h in
  if whence =? AVSEEK_SIZE then
    let '(ret, st_size, st') := CRT._fstat64 fd st in
    (if ret <? 0 then AVERROR (CRT.errno st') else st_size, st')
  else CRT._lseeki64 fd pos whence st.

Definition ufile_close (h : URLContext) (st : CRT.t) : Z * CRT.t :=
  CRT._close (handle_fd h) st.

End Protocol.

(** ** An environment to run the code in

    Enumerators and macros numbered in the way of the libavcodec headers, a
    handful of decoders, metadata as a list of tags, and a host whose
    conversion handles ASCII. *)
Module Sample.

Definition CODEC_ID_PCM_S16LE : CodecID := 0x10000.

Definition metadata_get (m : list (string * string)) (key : string)
  : option string :=
  match find (fun tag => String.eqb (up (fst tag)) (up key)) m with
  | Some tag => Some (snd tag)
  | None => None
  end.

Definition find_decoder (id0 : CodecID) : option AVCodec.t :=
  if id0 =? 28 then Some {| AVCodec.name := "h264" |}
  else if id0 =? 2 then Some {| AVCodec.name := "mpeg2video" |}
  else if id0 =? 0x15003 then Some {| AVCodec.name := "ac3" |}
  else if id0 =? 0x15004 then Some {| AVCodec.name := "dca" |}
  else if id0 =? 0x10000 then Some {| AVCodec.name := "pcm_s16le" |}
  else None.

Definition profile_name (c : AVCodec.t) (prof : Z) : cstr :=
  if String.eqb (AVCodec.name c) "h264" && (prof =? 100)
  then Some "High"%string
  else if String.eqb (AVCodec.name c) "dca" && (prof =? 60)
  then Some "DTS-HD MA"%string
  else None.

(** One byte of a codec tag: printed as it is when printable. *)
Definition tag_byte (b : Z) : string :=
  if (32 <=? b) && (b <? 127)
  then String (ascii_of_N (Z.to_N b)) EmptyString
  else ("[" ++ string_of_int b ++ "]")%string.

Definition codec_tag_string (tag : Z) : string :=
  (tag_byte (Z.land tag 255)
   ++ tag_byte (Z.land (Z.shiftr tag 8) 255)
   ++ tag_byte (Z.land (Z.shiftr tag 16) 255)
   ++ tag_byte (Z.land (Z.shiftr tag 24) 255))%string.

Definition channel_layout_string (nb_channels layout : Z) : string :=
  if nb_channels =? 1 then "mono"%string
  else if nb_channels =? 2 then "stereo"%string
  else (string_of_int nb_channels ++ " channels")%string.

Definition libav : Libav := {|
  CODEC_ID_H264 := 28;
  CODEC_ID_DTS := 0x15004;
  CODEC_ID_VC1 := 71;
  CODEC_ID_MPEG2VIDEO := 2;
  CODEC_ID_TRUEHD := 0x1502D;
  CODEC_ID_AC3 := 0x15003;
  CODEC_ID_EAC3 := 0x15029;
  CODEC_ID_AAC_LATM := 0x15031;
  CODEC_ID_TEXT := 0x17002;
  CODEC_ID_SRT := 0x17008;
  CODEC_ID_HDMV_PGS_SUBTITLE := 0x17006;
  CODEC_ID_DVD_SUBTITLE := 0x17000;
  CODEC_ID_DVB_SUBTITLE := 0x17001;
  CODEC_ID_SSA := 0x17004;
  CODEC_ID_XSUB := 0x17003;
  CODEC_ID_MLP := 0x1502E;
  CODEC_ID_FLAC := 0x1500D;
  CODEC_ID_WMALOSSLESS := 0x15025;
  CODEC_ID_WAVPACK := 0x1501A;
  CODEC_ID_MP4ALS := 0x1502B;
  CODEC_ID_ALAC := 0x15011;
  CodecID_distinct := eq_refl;
  FF_LEVEL_UNKNOWN := -99;
  PIX_FMT_NONE := -1;
  AV_SAMPLE_FMT_FLT := 3;
  AV_SAMPLE_FMT_DBL := 4;
  AV_DISPOSITION_DEFAULT := 0x0001;
  AV_DISPOSITION_FORCED := 0x0040;
  AV_DISPOSITION_HEARING_IMPAIRED := 0x0080;
  AVMetadata := list (string * string);
  av_metadata_get := metadata_get;
  av_get_bits_per_sample := fun id0 => if id0 =? 0x10000 then 16 else 0;
  avcodec_find_decoder := find_decoder;
  av_get_profile_name := profile_name;
  av_get_codec_tag_string := codec_tag_string;
  avcodec_get_pix_fmt_name :=
    fun fmt => if fmt =? 0 then Some "yuv420p"%string else None;
  av_get_channel_layout_string := channel_layout_string
|}.

#[local] Existing Instance libav.

Definition helpers : Helpers := {|
  get_bits_per_sample := fun ctx => if codec_id ctx =? 0x10000 then 16 else 0;
  ProbeLangForLanguage :=
    fun code => if String.eqb code "eng" then "English"%string else ""%string
|}.

Definition is_ascii (s : string) : bool :=
  forallb (fun c => (N_of_ascii c <? 128)%N) (list_ascii_of_string s).

(** The conversion of a NUL-terminated ASCII text: the characters and the
    terminator, or failure when they do not fit or a byte is not ASCII. *)
Definition to_wide (CodePage dwFlags : Z) (str : string)
    (cbMultiByte cchWideChar : Z) : Z * list Z :=
  let n := strlen str + 1 in
  if is_ascii str && (n <=? cchWideChar) then
    (n, map (fun c => Z.of_N (N_of_ascii c)) (list_ascii_of_string str) ++ [0])
  else (0, []).

(** A 32-bit process with zeroed memory behind the table. *)
Definition platform : Platform := {|
  arch := x86;
  beyond_nice_codec_names := fun _ => {| id := 0; name := None |};
  CoTaskMemAlloc := fun _ => true;
  MultiByteToWideChar := to_wide
|}.

(** The same process when the task allocator has no memory left. *)
Definition out_of_memory : Platform := {|
  arch := x86;
  beyond_nice_codec_names := fun _ => {| id := 0; name := None |};
  CoTaskMemAlloc := fun _ => false;
  MultiByteToWideChar := to_wide
|}.

Definition URL_WRONLY : Z := 1.
Definition URL_RDWR : Z := 2.
Definition AVSEEK_SIZE : Z := 0x10000.

(** A host without files: opening creates descriptor 3 on an empty file
    when asked to create, and fails with [ENOENT] otherwise. *)
Definition wsopen (path : list Z) (oflag shflag pmode : Z) (st : CRT.t)
  : Z * CRT.t :=
  if has_flag oflag CRT._O_CREAT then
    (3, CRT.update 3 (Some {| CRT.contents := []; CRT.offset := 0 |}) st)
  else (-1, CRT.fail CRT.ENOENT st).

Definition codec_context (type : AVMediaType) (id0 : CodecID) : AVCodecContext := {|
  codec_type := type;
  codec_id := id0;
  opaque := Some id0;
  bit_rate := 0;
  sample_rate := 0;
  channels := 0;
  channel_layout := 0;
  sample_fmt := 0;
  profile := 0;
  level := 0;
  codec_name := "";
  codec_tag := 0;
  pix_fmt := -1;
  width := 0;
  height := 0
|}.

Definition with_audio (ctx : AVCodecContext) (rate nb declared : Z)
  : AVCodecContext := {|
  codec_type := codec_type ctx;
  codec_id := codec_id ctx;
  opaque := opaque ctx;
  bit_rate := declared;
  sample_rate := rate;
  channels := nb;
  channel_layout := channel_layout ctx;
  sample_fmt := sample_fmt ctx;
  profile := profile ctx;
  level := level ctx;
  codec_name := codec_name ctx;
  codec_tag := codec_tag ctx;
  pix_fmt := pix_fmt ctx;
  width := width ctx;
  height := height ctx
|}.

Definition with_profile (ctx : AVCodecContext) (prof lvl : Z)
  : AVCodecContext := {|
  codec_type := codec_type ctx;
  codec_id := codec_id ctx;
  opaque := opaque ctx;
  bit_rate := bit_rate ctx;
  sample_rate := sample_rate ctx;
  channels := channels ctx;
  channel_layout := channel_layout ctx;
  sample_fmt := sample_fmt ctx;
  profile := prof;
  level := lvl;
  codec_name := codec_name ctx;
  codec_tag := codec_tag ctx;
  pix_fmt := pix_fmt ctx;
  width := width ctx;
  height := height ctx
|}.

Definition with_tag (ctx : AVCodecContext) (tag : Z) : AVCodecContext := {|
  codec_type := codec_type ctx;
  codec_id := codec_id ctx;
  opaque := opaque ctx;
  bit_rate := bit_rate ctx;
  sample_rate := sample_rate ctx;
  channels := channels ctx;
  channel_layout := channel_layout ctx;
  sample_fmt := sample_fmt ctx;
  profile := profile ctx;
  level := level ctx;
  codec_name := codec_name ctx;
  codec_tag := tag;
  pix_fmt := pix_fmt ctx;
  width := width ctx;
  height := height ctx
|}.

(** A runtime with no descriptor open, and one with descriptor 3 open on
    a file of five bytes, two of them read. *)
Definition no_files : CRT.t := {| CRT.fds := fun _ => None; CRT.errno := 0 |}.

Definition five_bytes : CRT.t :=
  CRT.update 3 (Some {| CRT.contents := [10; 20; 30; 40; 50];
                        CRT.offset := 2 |}) no_files.

(** "ufile:" and one byte that is not ASCII. *)
Definition bad_path : string :=
  ("ufile:" ++ String (ascii_of_N 255) EmptyString)%string.

Definition stream (ctx : AVCodecContext) (tags : list (string * string))
    (lang : cstr) : AVStream := {|
  index := 0;
  codec := ctx;
  metadata := tags;
  language := lang;
  disposition := 0
|}.

End Sample.

(** ** Measures used in the further statements *)

(** An ASCII lower-case letter, and a text that holds one. *)
Definition is_lower (c : ascii) : bool :=
  let n := N_of_ascii c in ((97 <=? n) && (n <=? 122))%N.

Fixpoint has_lower (s : string) : bool :=
  match s with
  | EmptyString => false
  | String c rest => is_lower c || has_lower rest
  end.

(** The tag that opens the description of a stream of each media type. *)
Definition type_tag (t : AVMediaType) : string :=
  match t with
  | AVMEDIA_TYPE_VIDEO => "V: "%string
  | AVMEDIA_TYPE_AUDIO => "A: "%string
  | AVMEDIA_TYPE_SUBTITLE => "S: "%string
  | _ => "Unknown: Stream #"%string
  end.

(** More of the sample environment: a process in which the memory behind
    the table holds, three elements past its end, an identity that no codec
    of the table has; and a stream with disposition flags. *)
Module SampleMore.

Definition leftover : Platform := {|
  arch := x86;
  beyond_nice_codec_names :=
    fun k => if (k =? 2)%nat
             then {| id := 999; name := Some "leftover"%string |}
             else {| id := 0; name := None |};
  CoTaskMemAlloc := fun _ => true;
  MultiByteToWideChar := Sample.to_wide
|}.

Definition flagged_stream (ctx : AVCodecContext)
    (tags : list (string * string)) (flags : Z) : @AVStream Sample.libav := {|
  index := 0;
  codec := ctx;
  metadata := tags : @AVMetadata Sample.libav;
  language := None;
  disposition := flags
|}.

End SampleMore.

(** * Properties *)

(** ** Arithmetic of [int] *)

Lemma int32_congr (a b : Z) :
  (a + 2 ^ 31) mod 2 ^ 32 = (b + 2 ^ 31) mod 2 ^ 32 -> int32 a = int32 b.
Proof. unfold int32. intros ->. reflexivity. Qed.

Lemma int32_shift (a : Z) : exists k, int32 a = a + k * 2 ^ 32.
Proof.
  exists (- ((a + 2 ^ 31) / 2 ^ 32)). unfold int32.
  rewrite Z.mod_eq by lia. lia.
Qed.

Lemma int32_mul_l (a b : Z) : int32 (int32 a * b) = int32 (a * b).
Proof.
  destruct (int32_shift a) as [k Hk]. rewrite Hk.
  apply int32_congr.
  replace ((a + k * 2 ^ 32) * b + 2 ^ 31)
    with (a * b + 2 ^ 31 + (k * b) * 2 ^ 32) by ring.
  apply Z_mod_plus_full.
Qed.

Lemma int32_small (z : Z) : - 2 ^ 31 <= z < 2 ^ 31 -> int32 z = z.
Proof.
  intros Hz. unfold int32. rewrite Z.mod_small; lia.
Qed.

Lemma int32_range (z : Z) : - 2 ^ 31 <= int32 z < 2 ^ 31.
Proof.
  unfold int32.
  pose proof (Z.mod_pos_bound (z + 2 ^ 31) (2 ^ 32) ltac:(lia)). lia.
Qed.

(** ** [get_bit_rate] *)

Section BitRate.
Context `{Libav}.

Lemma get_bit_rate_audio (ctx : AVCodecContext) :
  codec_type ctx = AVMEDIA_TYPE_AUDIO ->
  get_bit_rate ctx =
    if av_get_bits_per_sample (codec_id ctx) =? 0 then bit_rate ctx
    else int32 (sample_rate ctx * channels ctx
                * av_get_bits_per_sample (codec_id ctx)).
Proof.
  intros Ht. unfold get_bit_rate. rewrite Ht.
  destruct (av_get_bits_per_sample (codec_id ctx) =? 0); [reflexivity|].
  apply int32_mul_l.
Qed.

(** C7, as amended. The bit rate is the declared one for video, data,
    subtitle and attachment streams and 0 for the types the switch does not
    name. For audio it is the declared one when the codec has no known bits
    per sample, and otherwise sample rate x channels x bits per sample
    reduced to a 32-bit [int]: the exact product whenever that fits in 32
    bits. *)
Theorem get_bit_rate_by_type (ctx : AVCodecContext) :
  match codec_type ctx with
  | AVMEDIA_TYPE_VIDEO | AVMEDIA_TYPE_DATA
  | AVMEDIA_TYPE_SUBTITLE | AVMEDIA_TYPE_ATTACHMENT =>
      get_bit_rate ctx = bit_rate ctx
  | AVMEDIA_TYPE_AUDIO =>
      let bits_per_sample := av_get_bits_per_sample (codec_id ctx) in
      let product := sample_rate ctx * channels ctx * bits_per_sample in
      (bits_per_sample = 0 -> get_bit_rate ctx = bit_rate ctx) /\
      (bits_per_sample <> 0 ->
         get_bit_rate ctx = int32 product /\
         (- 2 ^ 31 <= product < 2 ^ 31 -> get_bit_rate ctx = product))
  | AVMEDIA_TYPE_UNKNOWN | AVMEDIA_TYPE_NB => get_bit_rate ctx = 0
  end.
Proof.
  destruct (codec_type ctx) eqn:Ht;
    try (unfold get_bit_rate; rewrite Ht; reflexivity).
  cbv zeta. rewrite (get_bit_rate_audio ctx Ht). split.
  - intros ->. reflexivity.
  - intros Hb. apply Z.eqb_neq in Hb. rewrite Hb. split; [reflexivity|].
    apply int32_small.
Qed.

End BitRate.

(** ** [get_stream_language] *)

Lemma ascii_code_diff (c1 c2 : ascii) :
  Z.of_N (N_of_ascii c1) - Z.of_N (N_of_ascii c2) = 0 -> c1 = c2.
Proof.
  intros Hd.
  assert (Hn : N_of_ascii c1 = N_of_ascii c2) by lia.
  rewrite <- (ascii_N_embedding c1), <- (ascii_N_embedding c2), Hn.
  reflexivity.
Qed.

(** One step of [strncmp] against a pattern that starts with [p]. *)
Lemma strncmp_str_step (c p : ascii) (s t : string) (n : nat) :
  (strncmp_str (String c s) (String p t) (S n) =? 0)
  = Ascii.eqb c p && (strncmp_str s t n =? 0).
Proof.
  simpl. destruct (Ascii.eqb c p) eqn:E; [reflexivity|].
  apply Z.eqb_neq. intros Hd. apply ascii_code_diff in Hd.
  apply Ascii.eqb_neq in E. contradiction.
Qed.

Lemma prefix_step (c p : ascii) (s t : string) :
  String.prefix (String p t) (String c s) = Ascii.eqb c p && String.prefix t s.
Proof.
  simpl. destruct (ascii_dec p c) as [->|Hne].
  - rewrite Ascii.eqb_refl. reflexivity.
  - destruct (Ascii.eqb_spec c p); [congruence | reflexivity].
Qed.

(** [strncmp(lang, "und", 3)] is 0 exactly when [lang] starts with "und". *)
Lemma strncmp_und (lang : string) :
  (strncmp_str lang "und" 3 =? 0) = String.prefix "und" lang.
Proof.
  destruct lang as [|c1 [|c2 [|c3 rest]]]; try reflexivity.
  - rewrite strncmp_str_step, prefix_step.
    destruct (Ascii.eqb c1 "u"); reflexivity.
  - rewrite strncmp_str_step, prefix_step, strncmp_str_step, prefix_step.
    destruct (Ascii.eqb c1 "u"), (Ascii.eqb c2 "n"); reflexivity.
  - rewrite !strncmp_str_step, !prefix_step.
    destruct (Ascii.eqb c1 "u"), (Ascii.eqb c2 "n"), (Ascii.eqb c3 "d");
      try reflexivity.
    destruct rest; reflexivity.
Qed.

Section Language.
Context `{Libav} `{Helpers}.

Lemma get_stream_language_candidate (pStream : AVStream) (lang : string) :
  stream_language_candidate pStream = Some lang ->
  get_stream_language pStream =
    Ok (if String.prefix "und" lang then None else Some lang).
Proof.
  intros Hc. unfold get_stream_language. rewrite Hc. simpl.
  rewrite strncmp_und. destruct (String.prefix "und" lang); reflexivity.
Qed.

(** C3, on the code. A stream with no "language" metadata entry and a
    stream-level language that is NULL or empty leaves [lang] NULL, and
    [get_stream_language] hands that NULL to [strncmp]: the call traps
    instead of returning NULL. *)
Theorem get_stream_language_no_candidate (pStream : AVStream) :
  av_metadata_get (metadata pStream) "language" = None ->
  language pStream = None \/ language pStream = Some ""%string ->
  stream_language_candidate pStream = None
  /\ get_stream_language pStream = Fault NullDereference.
Proof.
  intros Hm Hl.
  assert (Hc : stream_language_candidate pStream = None).
  { unfold stream_language_candidate. rewrite Hm.
    destruct Hl as [-> | ->]; reflexivity. }
  split; [exact Hc|].
  unfold get_stream_language. rewrite Hc. reflexivity.
Qed.

(** C8, as amended. The "language" metadata entry is taken before the
    stream-level field; a language that is "und", or any other text that
    starts with "und", gives no language; a language that does not start
    with "und" and has no display name is used itself, both as the code in
    brackets after a title and as the name shown when there is no title. *)
Theorem stream_language_selection (pStream : AVStream) :
  (forall value,
     av_metadata_get (metadata pStream) "language" = Some value ->
     stream_language_candidate pStream = Some value)
  /\ (stream_language_candidate pStream = Some "und"%string ->
      get_stream_language pStream = Ok None)
  /\ (forall lang,
        stream_language_candidate pStream = Some lang ->
        String.prefix "und" lang = true ->
        get_stream_language pStream = Ok None)
  /\ (forall lang,
        stream_language_candidate pStream = Some lang ->
        String.prefix "und" lang = false ->
        get_stream_language pStream = Ok (Some lang)
        /\ (ProbeLangForLanguage lang = ""%string ->
            stream_language_names pStream = Ok (Some lang, lang)
            /\ (forall title,
                  title_language (Some title) (Some lang) lang
                  = (title ++ " [" ++ lang ++ "] (")%string)
            /\ title_language None (Some lang) lang = (lang ++ " (")%string)).
Proof.
  split; [|split; [|split]].
  - intros value Hm. unfold stream_language_candidate. rewrite Hm. reflexivity.
  - intros Hc. rewrite (get_stream_language_candidate _ _ Hc). reflexivity.
  - intros lang Hc Hp.
    rewrite (get_stream_language_candidate _ _ Hc), Hp. reflexivity.
  - intros lang Hc Hp.
    assert (Hlang : get_stream_language pStream = Ok (Some lang)).
    { rewrite (get_stream_language_candidate _ _ Hc), Hp. reflexivity. }
    split; [exact Hlang|]. intros Hprobe.
    split; [|split; [intros title|]; reflexivity].
    unfold stream_language_names. rewrite Hlang. cbn [bind].
    rewrite Hprobe. reflexivity.
Qed.

End Language.

(** ** The scan of [nice_codec_names] *)

Lemma distinct_NoDup (l : list Z) : distinct l = true -> NoDup l.
Proof.
  induction l as [|x rest IH]; simpl; intros Hd; [constructor|].
  apply andb_true_iff in Hd. destruct Hd as [Hx Hrest].
  constructor; [|auto].
  intros Hin. apply negb_true_iff in Hx.
  assert (He : existsb (Z.eqb x) rest = true).
  { apply existsb_exists. exists x. split; [exact Hin | apply Z.eqb_refl]. }
  congruence.
Qed.

Section Scan.
Context `{Libav} `{Platform}.

Lemma nice_codec_names_length : List.length nice_codec_names = 13%nat.
Proof. reflexivity. Qed.

Lemma sizeof_nice_codec_names_bound : (13 < sizeof_nice_codec_names)%nat.
Proof.
  unfold sizeof_nice_codec_names. rewrite nice_codec_names_length.
  destruct arch; simpl; lia.
Qed.

(** The bound of the scan: 104 bytes on x86 and 208 on x64. *)
Lemma sizeof_nice_codec_names_bytes :
  sizeof_nice_codec_names = match arch with x86 => 104%nat | x64 => 208%nat end.
Proof.
  unfold sizeof_nice_codec_names. rewrite nice_codec_names_length.
  destruct arch; reflexivity.
Qed.

Lemma nice_codec_names_NoDup : NoDup (map id nice_codec_names).
Proof.
  pose proof (distinct_NoDup _ CodecID_distinct) as Hd.
  inversion Hd as [|? ? _ Hd1]. inversion Hd1 as [|? ? _ Hd2]. exact Hd2.
Qed.

Lemma table_not_H264 : ~ In CODEC_ID_H264 (map id nice_codec_names).
Proof.
  pose proof (distinct_NoDup _ CodecID_distinct) as Hd.
  inversion Hd as [|? ? Hn _]. intros Hin. apply Hn. right. exact Hin.
Qed.

Lemma table_not_DTS : ~ In CODEC_ID_DTS (map id nice_codec_names).
Proof.
  pose proof (distinct_NoDup _ CodecID_distinct) as Hd.
  inversion Hd as [|? ? _ Hd1]. inversion Hd1 as [|? ? Hn _]. exact Hn.
Qed.

Lemma nice_codec_names_at_table (i : nat) (e : s_codec_names) :
  nth_error nice_codec_names i = Some e -> nice_codec_names_at i = e.
Proof. unfold nice_codec_names_at. intros ->. reflexivity. Qed.

Lemma nice_codec_names_at_beyond (i : nat) :
  (13 <= i)%nat ->
  nice_codec_names_at i = beyond_nice_codec_names (i - 13).
Proof.
  intros Hi. unfold nice_codec_names_at.
  assert (Hn : nth_error nice_codec_names i = None).
  { apply nth_error_None. rewrite nice_codec_names_length. exact Hi. }
  rewrite Hn, nice_codec_names_length. reflexivity.
Qed.

(** Inside the array every element read is one of the table. *)
Lemma nice_codec_names_at_id (i : nat) :
  (i < 13)%nat -> In (id (nice_codec_names_at i)) (map id nice_codec_names).
Proof.
  intros Hi.
  destruct (nth_error nice_codec_names i) as [e|] eqn:He.
  - rewrite (nice_codec_names_at_table _ _ He).
    apply in_map. eapply nth_error_In. exact He.
  - apply nth_error_None in He. rewrite nice_codec_names_length in He. lia.
Qed.

(** The loop reads index [i + k] when the [k] elements before it miss. *)
Lemma nice_name_loop_reaches (id0 : CodecID) (k : nat) :
  forall i count,
    (forall j, (i <= j < i + k)%nat -> id (nice_codec_names_at j) <> id0) ->
    (k < count)%nat ->
    In (i + k)%nat (fst (nice_name_loop id0 i count)).
Proof.
  induction k as [|k IH]; intros i count Hmiss Hk.
  - destruct count as [|count]; [lia|]. simpl.
    replace (i + 0)%nat with i by lia.
    destruct (id (nice_codec_names_at i) =? id0).
    + left. reflexivity.
    + destruct (nice_name_loop id0 (S i) count). left. reflexivity.
  - destruct count as [|count]; [lia|]. simpl.
    assert (Hi : (id (nice_codec_names_at i) =? id0) = false).
    { apply Z.eqb_neq. apply Hmiss. lia. }
    rewrite Hi.
    specialize (IH (S i) count).
    destruct (nice_name_loop id0 (S i) count) as [reads r].
    simpl in *. right.
    replace (i + S k)%nat with (S (i + k)) by lia.
    apply IH; [|lia]. intros j Hj. apply Hmiss. lia.
Qed.

(** The loop stops at the first element that matches. *)
Lemma nice_name_loop_hit (id0 : CodecID) (k : nat) :
  forall i count,
    (forall j, (i <= j < i + k)%nat -> id (nice_codec_names_at j) <> id0) ->
    id (nice_codec_names_at (i + k)) = id0 ->
    (k < count)%nat ->
    nice_name_loop id0 i count
    = (seq i (S k), name (nice_codec_names_at (i + k))).
Proof.
  induction k as [|k IH]; intros i count Hmiss Hhit Hk.
  - destruct count as [|count]; [lia|].
    replace (i + 0)%nat with i in * by lia. simpl.
    apply Z.eqb_eq in Hhit. rewrite Hhit. reflexivity.
  - destruct count as [|count]; [lia|].
    assert (Hi : (id (nice_codec_names_at i) =? id0) = false).
    { apply Z.eqb_neq. apply Hmiss. lia. }
    cbn [nice_name_loop]. rewrite Hi.
    replace (i + S k)%nat with (S i + k)%nat in * by lia.
    rewrite (IH (S i) count); [reflexivity | | exact Hhit | lia].
    intros j Hj. apply Hmiss. lia.
Qed.

(** The loop runs to its bound when nothing matches. *)
Lemma nice_name_loop_none (id0 : CodecID) (count : nat) :
  forall i,
    (forall j, (i <= j < i + count)%nat ->
               id (nice_codec_names_at j) <> id0) ->
    nice_name_loop id0 i count = (seq i count, None).
Proof.
  induction count as [|count IH]; intros i Hmiss; [reflexivity|].
  assert (Hi : (id (nice_codec_names_at i) =? id0) = false).
  { apply Z.eqb_neq. apply Hmiss. lia. }
  cbn [nice_name_loop]. rewrite Hi.
  rewrite (IH (S i)); [reflexivity|].
  intros j Hj. apply Hmiss. lia.
Qed.

(** For an identity of the table the scan stays inside the array and yields
    the name of its entry. *)
Lemma nice_name_scan_found (e : s_codec_names) :
  In e nice_codec_names ->
  exists k, (k < 13)%nat
            /\ nice_name_scan (id e) = (seq 0 (S k), name e).
Proof.
  intros Hin. apply In_nth_error in Hin. destruct Hin as [k Hk].
  assert (Hlt : (k < 13)%nat).
  { rewrite <- nice_codec_names_length. apply nth_error_Some. congruence. }
  exists k. split; [exact Hlt|].
  unfold nice_name_scan.
  rewrite (nice_name_loop_hit (id e) k 0 sizeof_nice_codec_names).
  - simpl. rewrite (nice_codec_names_at_table _ _ Hk). reflexivity.
  - intros j Hj Heq. simpl in Hj.
    destruct (nth_error nice_codec_names j) as [e'|] eqn:He'.
    + rewrite (nice_codec_names_at_table _ _ He') in Heq.
      pose proof nice_codec_names_NoDup as Hnd.
      rewrite NoDup_nth_error in Hnd.
      assert (Hjk : j = k).
      { apply Hnd.
        - rewrite length_map, nice_codec_names_length. lia.
        - rewrite !nth_error_map, He', Hk. simpl. congruence. }
      lia.
    + apply nth_error_None in He'. rewrite nice_codec_names_length in He'. lia.
  - simpl. rewrite (nice_codec_names_at_table _ _ Hk). reflexivity.
  - pose proof sizeof_nice_codec_names_bound. lia.
Qed.

(** When neither the table nor the memory behind it holds the identity, the
    scan reads every index below its bound and leaves [nice_name] NULL. *)
Lemma nice_name_scan_none (id0 : CodecID) :
  ~ In id0 (map id nice_codec_names) ->
  (forall k, id (beyond_nice_codec_names k) <> id0) ->
  nice_name_scan id0 = (seq 0 sizeof_nice_codec_names, None).
Proof.
  intros Hnot Hbeyond. unfold nice_name_scan.
  apply nice_name_loop_none. intros j _.
  destruct (Nat.lt_ge_cases j 13) as [Hj|Hj].
  - intros Heq. apply Hnot. rewrite <- Heq. apply nice_codec_names_at_id, Hj.
  - rewrite (nice_codec_names_at_beyond _ Hj). apply Hbeyond.
Qed.

(** C2, on the code. The bound of the loop is [sizeof(nice_codec_names)], a
    number of bytes (104 or 208), not the 13 elements of the array: for an
    identity that is not in the table the scan reads [nice_codec_names[13]],
    the first element past the end of the array. *)
Theorem nice_name_scan_reads_past_end (id0 : CodecID) :
  ~ In id0 (map id nice_codec_names) ->
  (List.length nice_codec_names < sizeof_nice_codec_names)%nat
  /\ In (List.length nice_codec_names) (fst (nice_name_scan id0))
  /\ nth_error nice_codec_names (List.length nice_codec_names) = None.
Proof.
  intros Hnot. rewrite nice_codec_names_length.
  split; [apply sizeof_nice_codec_names_bound|]. split; [|reflexivity].
  unfold nice_name_scan.
  apply (nice_name_loop_reaches id0 13 0 sizeof_nice_codec_names).
  - intros j Hj Heq. apply Hnot. rewrite <- Heq.
    apply nice_codec_names_at_id. lia.
  - apply sizeof_nice_codec_names_bound.
Qed.

End Scan.

(** ** [get_codec_name] *)

Lemma short_levels_fit :
  forallb (fun l => (String.length (fmt_1f_tenths l) <? 5)%nat) short_levels
  = true.
Proof. vm_compute. reflexivity. Qed.

(** Between -100 and 1000 the text of ["%.1f"] fits the five bytes of
    [l_buf]. *)
Lemma sprintf_s_level (l : Z) :
  -100 < l < 1000 ->
  sprintf_s 5 (fmt_1f_tenths l) = Ok (fmt_1f_tenths l).
Proof.
  intros Hl. unfold sprintf_s.
  pose proof short_levels_fit as Hfit.
  rewrite forallb_forall in Hfit. rewrite Hfit; [reflexivity|].
  unfold short_levels. apply in_map_iff.
  exists (Z.to_nat (l + 99)). split; [lia|].
  apply in_seq. lia.
Qed.

Lemma length_append (s t : string) :
  String.length (s ++ t) = (String.length s + String.length t)%nat.
Proof. induction s as [|c s IH]; simpl; congruence. Qed.

Lemma hex_digits_length (fuel : nat) :
  forall n, (String.length (hex_digits fuel n) <= fuel)%nat.
Proof.
  induction fuel as [|fuel IH]; intros n; simpl; [lia|].
  destruct (n <? 16); simpl; [lia|].
  rewrite length_append. simpl. specialize (IH (n / 16)). lia.
Qed.

Lemma zeros_length (n : nat) : String.length (zeros n) = n.
Proof. induction n; simpl; congruence. Qed.

Lemma fmt_04X_length (n : Z) : (4 <= String.length (fmt_04X n) <= 8)%nat.
Proof.
  unfold fmt_04X. cbv zeta. rewrite length_append, zeros_length.
  pose proof (hex_digits_length 8 n). lia.
Qed.

(** The text of ["0x%04X"] fits the 32 bytes of [buf]. *)
Lemma sprintf_s_tag (tag : Z) :
  sprintf_s 32 ("0x" ++ fmt_04X tag) = Ok ("0x" ++ fmt_04X tag)%string.
Proof.
  unfold sprintf_s.
  assert (Hlen : (String.length ("0x" ++ fmt_04X tag) <? 32)%nat = true).
  { apply Nat.ltb_lt. rewrite length_append. simpl.
    pose proof (fmt_04X_length tag). lia. }
  rewrite Hlen. reflexivity.
Qed.

Lemma hex_digit_spec (d : Z) :
  0 <= d < 16 ->
  is_upper_hex (hex_digit d) = true /\ hex_digit_value (hex_digit d) = d.
Proof.
  intros Hd.
  assert (Hcases : In d [0;1;2;3;4;5;6;7;8;9;10;11;12;13;14;15]).
  { simpl. lia. }
  simpl in Hcases.
  repeat (destruct Hcases as [<-|Hcases]; [split; reflexivity|]).
  contradiction.
Qed.

Lemma hex_value_from_app (s t : string) :
  forall acc, hex_value_from acc (s ++ t) = hex_value_from (hex_value_from acc s) t.
Proof.
  induction s as [|c s IH]; intros acc; simpl; [reflexivity|]. apply IH.
Qed.

Lemma all_upper_hex_app (s t : string) :
  all_upper_hex (s ++ t) = all_upper_hex s && all_upper_hex t.
Proof.
  induction s as [|c s IH]; simpl; [reflexivity|].
  rewrite IH. apply andb_assoc.
Qed.

Lemma hex_digits_spec (fuel : nat) :
  forall n, 0 <= n < 16 ^ Z.of_nat fuel ->
            all_upper_hex (hex_digits fuel n) = true
            /\ hex_value_from 0 (hex_digits fuel n) = n.
Proof.
  induction fuel as [|fuel IH]; intros n Hn.
  - simpl in Hn. assert (n = 0) by lia. subst. split; reflexivity.
  - cbn [hex_digits]. destruct (n <? 16) eqn:Hsmall.
    + apply Z.ltb_lt in Hsmall.
      destruct (hex_digit_spec n ltac:(lia)) as [Hu Hv].
      simpl. rewrite Hu, Hv. split; reflexivity.
    + apply Z.ltb_ge in Hsmall.
      assert (Hq : 0 <= n / 16 < 16 ^ Z.of_nat fuel).
      { split; [apply Z.div_pos; lia|].
        apply Z.div_lt_upper_bound; [lia|].
        rewrite Nat2Z.inj_succ, Z.pow_succ_r in Hn by lia. lia. }
      destruct (IH _ Hq) as [Hu Hv].
      destruct (hex_digit_spec (n mod 16)) as [Hu' Hv'].
      { apply Z.mod_pos_bound. lia. }
      rewrite all_upper_hex_app, hex_value_from_app, Hu, Hv.
      cbn [hex_value_from all_upper_hex andb].
      rewrite Hu', Hv'. split; [reflexivity|].
      pose proof (Z.div_mod n 16 ltac:(lia)). lia.
Qed.

Lemma zeros_spec (k : nat) (s : string) :
  all_upper_hex (zeros k ++ s) = all_upper_hex s
  /\ hex_value_from 0 (zeros k ++ s) = hex_value_from 0 s.
Proof.
  induction k as [|k [IHu IHv]]; simpl; [split; reflexivity|].
  split; assumption.
Qed.

(** ["%04X"] of an [unsigned int]: four to eight digits among [0-9A-F] that
    denote the number. *)
Lemma fmt_04X_spec (n : Z) :
  0 <= n < 2 ^ 32 ->
  all_upper_hex (fmt_04X n) = true /\ hex_value (fmt_04X n) = n.
Proof.
  intros Hn. unfold fmt_04X, hex_value. cbv zeta.
  destruct (zeros_spec (4 - String.length (hex_digits 8 n)) (hex_digits 8 n))
    as [Hu Hv].
  rewrite Hu, Hv. apply hex_digits_spec. simpl. lia.
Qed.

Section CodecName.
Context `{Libav} `{Platform}.

(** The H.264 rule: "H.264 ", the profile and, for a level the guard lets
    through, " L" and what [sprintf_s] leaves in [l_buf]. *)
Lemma get_codec_name_h264_rule (ctx : AVCodecContext) (prof : string) :
  codec_identity ctx = Ok CODEC_ID_H264 ->
  codec_profile_name (avcodec_find_decoder CODEC_ID_H264) ctx = Some prof ->
  get_codec_name ctx =
    if negb (level ctx =? 0) && negb (level ctx =? FF_LEVEL_UNKNOWN)
       && (level ctx <? 1000)
    then l_buf <- sprintf_s 5 (fmt_1f_tenths (level ctx)) ;;
         Ok ("H.264 " ++ prof ++ " L" ++ l_buf)%string
    else Ok ("H.264 " ++ prof)%string.
Proof.
  intros Hid Hprof. unfold get_codec_name. rewrite Hid.
  cbn [bind]. cbv zeta. rewrite Hprof, Z.eqb_refl. reflexivity.
Qed.

(** The H.264 rule for every level above -100: the level is appended, as
    tenths with one decimal, exactly when it is not 0, not
    [FF_LEVEL_UNKNOWN] and below 1000. *)
Lemma get_codec_name_h264 (ctx : AVCodecContext) (prof : string) :
  codec_identity ctx = Ok CODEC_ID_H264 ->
  codec_profile_name (avcodec_find_decoder CODEC_ID_H264) ctx = Some prof ->
  -100 < level ctx ->
  get_codec_name ctx =
    Ok (if negb (level ctx =? 0) && negb (level ctx =? FF_LEVEL_UNKNOWN)
           && (level ctx <? 1000)
        then ("H.264 " ++ prof ++ " L" ++ fmt_1f_tenths (level ctx))%string
        else ("H.264 " ++ prof)%string).
Proof.
  intros Hid Hprof Hlow.
  rewrite (get_codec_name_h264_rule ctx prof Hid Hprof).
  destruct (negb (level ctx =? 0) && negb (level ctx =? FF_LEVEL_UNKNOWN))
    eqn:Hguard; [|reflexivity].
  destruct (level ctx <? 1000) eqn:Hhigh; [|reflexivity].
  apply Z.ltb_lt in Hhigh. cbn [andb].
  rewrite sprintf_s_level by lia. reflexivity.
Qed.

(** C4, on the code. A level of -100 passes the guard (it is not 0, not
    [FF_LEVEL_UNKNOWN] and below 1000), but ["%.1f"] of -10.0 is the five
    characters "-10.0", which with the terminator do not fit [l_buf[5]]:
    [sprintf_s] runs the invalid parameter handler and no name is
    returned. *)
Theorem get_codec_name_h264_negative_level (ctx : AVCodecContext)
    (prof : string) :
  codec_identity ctx = Ok CODEC_ID_H264 ->
  codec_profile_name (avcodec_find_decoder CODEC_ID_H264) ctx = Some prof ->
  level ctx = -100 ->
  FF_LEVEL_UNKNOWN <> -100 ->
  get_codec_name ctx = Fault InvalidParameter.
Proof.
  intros Hid Hprof Hlevel Hunknown.
  rewrite (get_codec_name_h264_rule ctx prof Hid Hprof), Hlevel.
  assert (Hu : (-100 =? FF_LEVEL_UNKNOWN) = false) by (apply Z.eqb_neq; lia).
  rewrite Hu. reflexivity.
Qed.

(** Every entry of the table has a name. *)
Lemma nice_codec_names_named (e : s_codec_names) :
  In e nice_codec_names -> exists nice, name e = Some nice.
Proof.
  intros Hin. simpl in Hin.
  repeat (destruct Hin as [<- | Hin]; [eexists; reflexivity|]).
  contradiction.
Qed.

(** C9. For an entry of the table, a context whose identity is the entry's
    and for which no profile name is available resolves to the entry's
    name; each identity occurs once in the table, so the entry is the first
    one that matches. *)
Theorem get_codec_name_nice (e : s_codec_names) (ctx : AVCodecContext) :
  In e nice_codec_names ->
  codec_identity ctx = Ok (id e) ->
  codec_profile_name (avcodec_find_decoder (id e)) ctx = None ->
  (exists nice, name e = Some nice /\ get_codec_name ctx = Ok nice)
  /\ (forall e', In e' nice_codec_names -> id e' = id e -> e' = e).
Proof.
  intros Hin Hid Hprof. split.
  - destruct (nice_codec_names_named e Hin) as [nice Hname].
    exists nice. split; [exact Hname|].
    unfold get_codec_name. rewrite Hid. cbn [bind]. cbv zeta.
    rewrite Hprof.
    destruct (nice_name_scan_found e Hin) as [k [_ Hscan]].
    rewrite Hscan. cbn [snd]. rewrite Hname.
    destruct (id e =? CODEC_ID_H264), (id e =? CODEC_ID_DTS); reflexivity.
  - intros e' Hin' Heq.
    apply In_nth_error in Hin. destruct Hin as [k Hk].
    apply In_nth_error in Hin'. destruct Hin' as [k' Hk'].
    pose proof nice_codec_names_NoDup as Hnd.
    rewrite NoDup_nth_error in Hnd.
    assert (Hkk : k' = k).
    { apply Hnd.
      - rewrite length_map. apply nth_error_Some. congruence.
      - rewrite !nth_error_map, Hk, Hk'. simpl. congruence. }
    subst k'. congruence.
Qed.

(** With a profile name too the table's name wins, the identities of the
    table being neither H.264 nor DTS. *)
Lemma get_codec_name_nice_any_profile (e : s_codec_names)
    (ctx : AVCodecContext) (nice : string) :
  In e nice_codec_names ->
  name e = Some nice ->
  codec_identity ctx = Ok (id e) ->
  get_codec_name ctx = Ok nice.
Proof.
  intros Hin Hname Hid.
  unfold get_codec_name. rewrite Hid. cbn [bind]. cbv zeta.
  destruct (nice_name_scan_found e Hin) as [k [_ Hscan]].
  rewrite Hscan. cbn [snd]. rewrite Hname.
  assert (H264 : (id e =? CODEC_ID_H264) = false).
  { apply Z.eqb_neq. intros Heq. apply table_not_H264.
    rewrite <- Heq. apply in_map, Hin. }
  assert (DTS : (id e =? CODEC_ID_DTS) = false).
  { apply Z.eqb_neq. intros Heq. apply table_not_DTS.
    rewrite <- Heq. apply in_map, Hin. }
  rewrite H264, DTS.
  destruct (codec_profile_name (avcodec_find_decoder (id e)) ctx); reflexivity.
Qed.

(** C10, as amended. When no decoder is found, the scan leaves [nice_name]
    NULL and the embedded codec name is empty, the name is the tag string of
    the codec tag, " / 0x" and the tag in upper-case hexadecimal padded with
    zeros to at least four digits: four to eight digits that denote the
    tag. *)
Theorem get_codec_name_tag (ctx : AVCodecContext) (id0 : CodecID) :
  codec_identity ctx = Ok id0 ->
  avcodec_find_decoder id0 = None ->
  snd (nice_name_scan id0) = None ->
  codec_name ctx = ""%string ->
  0 <= codec_tag ctx < 2 ^ 32 ->
  get_codec_name ctx =
    Ok (av_get_codec_tag_string (codec_tag ctx) ++ " / 0x"
        ++ fmt_04X (codec_tag ctx))%string
  /\ (4 <= String.length (fmt_04X (codec_tag ctx)) <= 8)%nat
  /\ all_upper_hex (fmt_04X (codec_tag ctx)) = true
  /\ hex_value (fmt_04X (codec_tag ctx)) = codec_tag ctx.
Proof.
  intros Hid Hdec Hscan Hname Htag.
  split; [|split; [apply fmt_04X_length | apply fmt_04X_spec, Htag]].
  unfold get_codec_name. rewrite Hid. cbn [bind]. cbv zeta.
  rewrite Hdec, Hscan, Hname. cbn [codec_profile_name].
  destruct (id0 =? CODEC_ID_H264), (id0 =? CODEC_ID_DTS);
    cbn [String.eqb negb]; rewrite sprintf_s_tag; reflexivity.
Qed.

End CodecName.

(** ** [lavf_describe_stream] *)

Section Describe.
Context `{Libav} `{Helpers} `{Platform}.

(** Every text that [lavf_describe_stream] collects starts with the tag of
    the media type: it is never empty. *)
Lemma describe_text_nonempty (pStream : AVStream) (info : string) :
  describe_text pStream = Ok info -> info <> ""%string.
Proof.
  unfold describe_text, bind.
  destruct (get_codec_name (codec pStream)); [|discriminate].
  destruct (stream_language_names pStream) as [[lang sLanguage]|];
    [|discriminate].
  destruct (codec_type (codec pStream));
    try (intros Heq; inversion Heq; discriminate).
  destruct (negb (pix_fmt (codec pStream) =? PIX_FMT_NONE));
    [destruct (avcodec_get_pix_fmt_name (pix_fmt (codec pStream)))|];
    intros Heq; inversion Heq; discriminate.
Qed.

(** A NULL argument is refused with [E_POINTER]. *)
Lemma lavf_describe_stream_null (pStream : option AVStream) (ppszName : bool) :
  pStream = None \/ ppszName = false ->
  lavf_describe_stream pStream ppszName = Ok (E_POINTER, None).
Proof.
  intros [-> | ->]; [reflexivity|]. destruct pStream; reflexivity.
Qed.

(** X13. When the block is allocated the call succeeds with the converted text,
    which is not empty before the conversion. *)
Lemma lavf_describe_stream_allocated (pStream : AVStream) (info : string) :
  describe_text pStream = Ok info ->
  CoTaskMemAlloc ((strlen info + 1) * sizeof_WCHAR) = true ->
  lavf_describe_stream (Some pStream) true
  = Ok (S_OK,
        Some (snd (MultiByteToWideChar CP_UTF8 0 info (-1) (strlen info + 1))))
  /\ info <> ""%string.
Proof.
  intros Hinfo Halloc. split; [|eapply describe_text_nonempty; eassumption].
  unfold lavf_describe_stream. cbn [negb]. rewrite Hinfo. cbn [bind].
  cbv zeta. rewrite Halloc. reflexivity.
Qed.

(** C1, on the code. The result of [CoTaskMemAlloc] is not tested: when the
    allocation fails, [lavf_describe_stream] still returns [S_OK], and the
    output pointer is NULL. *)
Theorem lavf_describe_stream_allocation_failure (pStream : AVStream)
    (info : string) :
  describe_text pStream = Ok info ->
  CoTaskMemAlloc ((strlen info + 1) * sizeof_WCHAR) = false ->
  lavf_describe_stream (Some pStream) true = Ok (S_OK, None).
Proof.
  intros Hinfo Halloc.
  unfold lavf_describe_stream. cbn [negb]. rewrite Hinfo. cbn [bind].
  cbv zeta. rewrite Halloc. reflexivity.
Qed.

End Describe.

(** ** The [ufile:] protocol *)

Section ProtocolProperties.
Context `{Platform}.
Variables URL_RDWR URL_WRONLY AVSEEK_SIZE : Z.
Variable _wsopen_s : list Z -> Z -> Z -> Z -> CRT.t -> Z * CRT.t.

(** [_fstat64] moves no position: it leaves the table of descriptors as it
    is, and fails only on a descriptor that is not open. *)
Lemma fstat64_frame (fd : Z) (st : CRT.t) :
  let '(ret, st_size, st') := CRT._fstat64 fd st in
  CRT.fds st' = CRT.fds st
  /\ match CRT.fds st fd with
     | Some f => ret = 0 /\ st_size = CRT.size f /\ st' = st
     | None => ret = -1 /\ CRT.errno st' = CRT.EBADF
     end.
Proof.
  unfold CRT._fstat64. destruct (CRT.fds st fd); simpl; auto.
Qed.

(** [_read] looks at the table of descriptors alone. *)
Lemma read_same_fds (fd size : Z) (st st' : CRT.t) :
  CRT.fds st' = CRT.fds st ->
  fst (CRT._read fd size st') = fst (CRT._read fd size st)
  /\ forall fd', CRT.fds (snd (CRT._read fd size st')) fd'
                 = CRT.fds (snd (CRT._read fd size st)) fd'.
Proof.
  intros Hfds. unfold CRT._read. rewrite Hfds.
  destruct (CRT.fds st fd) as [f|]; [destruct (size <? 0)|];
    simpl; rewrite ?Hfds; auto.
Qed.

(** C5. With [whence == AVSEEK_SIZE] the call returns the size of the file,
    or [AVERROR(errno)] when [_fstat64] fails, and leaves every position as
    it was, so that a read after it returns what it would have returned
    before it; with any other [whence] the call is [_lseeki64] on the
    descriptor of the handle, which returns the new offset or -1. *)
Theorem ufile_seek_spec (h : URLContext) (pos whence : Z) (st : CRT.t) :
  (whence = AVSEEK_SIZE ->
     let '(ret, st') := ufile_seek AVSEEK_SIZE h pos whence st in
     CRT.fds st' = CRT.fds st
     /\ match CRT.fds st (handle_fd h) with
        | Some f => ret = CRT.size f /\ st' = st
        | None => ret = AVERROR (CRT.errno st')
        end
     /\ forall size,
          fst (ufile_read h size st') = fst (ufile_read h size st)
          /\ forall fd, CRT.fds (snd (ufile_read h size st')) fd
                        = CRT.fds (snd (ufile_read h size st)) fd)
  /\ (whence <> AVSEEK_SIZE ->
        ufile_seek AVSEEK_SIZE h pos whence st
        = CRT._lseeki64 (handle_fd h) pos whence st).
Proof.
  split.
  - intros ->. unfold ufile_seek. rewrite Z.eqb_refl. cbv zeta.
    pose proof (fstat64_frame (handle_fd h) st) as Hframe.
    destruct (CRT._fstat64 (handle_fd h) st) as [[ret st_size] st'].
    destruct Hframe as [Hfds Hret].
    split; [exact Hfds|]. split.
    + destruct (CRT.fds st (handle_fd h)).
      * destruct Hret as [-> [-> ->]]. split; reflexivity.
      * destruct Hret as [-> _]. reflexivity.
    + intros size. unfold ufile_read. apply read_same_fds, Hfds.
  - intros Hw. unfold ufile_seek. apply Z.eqb_neq in Hw. rewrite Hw.
    reflexivity.
Qed.

(** What [_lseeki64] does for the three origins of the C library, on an open
    descriptor and a target inside the 64-bit range: the call returns the
    target and makes it the position. *)
Lemma lseeki64_moves (fd pos whence : Z) (st : CRT.t) (f : CRT.open_file) :
  CRT.fds st fd = Some f ->
  let base := if whence =? CRT.SEEK_SET then 0
              else if whence =? CRT.SEEK_CUR then CRT.offset f
              else CRT.size f in
  whence = CRT.SEEK_SET \/ whence = CRT.SEEK_CUR \/ whence = CRT.SEEK_END ->
  0 <= base + pos < 2 ^ 63 ->
  fst (CRT._lseeki64 fd pos whence st) = base + pos
  /\ CRT.fds (snd (CRT._lseeki64 fd pos whence st)) fd
     = Some {| CRT.contents := CRT.contents f; CRT.offset := base + pos |}.
Proof.
  intros Hf base Hw Hrange. unfold CRT._lseeki64. rewrite Hf.
  assert (Hb : (if whence =? CRT.SEEK_SET then Some 0
                else if whence =? CRT.SEEK_CUR then Some (CRT.offset f)
                else if whence =? CRT.SEEK_END then Some (CRT.size f)
                else None) = Some base).
  { subst base. destruct Hw as [-> | [-> | ->]]; reflexivity. }
  rewrite Hb.
  assert (Hin : (base + pos <? 0) || (2 ^ 63 <=? base + pos) = false).
  { apply orb_false_iff. split; [apply Z.ltb_ge | apply Z.leb_gt]; lia. }
  rewrite Hin. simpl. rewrite Z.eqb_refl. split; reflexivity.
Qed.

(** The [access] of the three kinds of request. *)
Lemma ufile_access_cases (flags : Z) :
  (Z.land flags URL_RDWR <> 0 ->
     ufile_access URL_RDWR URL_WRONLY flags
     = Z.lor (Z.lor (Z.lor CRT._O_CREAT CRT._O_TRUNC) CRT._O_RDWR)
             CRT.O_BINARY)
  /\ (Z.land flags URL_RDWR = 0 -> Z.land flags URL_WRONLY <> 0 ->
        ufile_access URL_RDWR URL_WRONLY flags
        = Z.lor (Z.lor (Z.lor CRT._O_CREAT CRT._O_TRUNC) CRT._O_WRONLY)
                CRT.O_BINARY)
  /\ (Z.land flags URL_RDWR = 0 -> Z.land flags URL_WRONLY = 0 ->
        ufile_access URL_RDWR URL_WRONLY flags
        = Z.lor CRT._O_RDONLY CRT.O_BINARY).
Proof.
  unfold ufile_access, has_flag. repeat split.
  - intros Hrw. apply Z.eqb_neq in Hrw. rewrite Hrw. reflexivity.
  - intros Hrw Hw. apply Z.eqb_eq in Hrw. apply Z.eqb_neq in Hw.
    rewrite Hrw, Hw. reflexivity.
  - intros Hrw Hw. apply Z.eqb_eq in Hrw. apply Z.eqb_eq in Hw.
    rewrite Hrw, Hw. reflexivity.
Qed.

(** C6. When the conversion of the path behind "ufile:" fails, the call
    returns [AVERROR(ENOENT)]. Otherwise the host opens the converted path
    with create, truncate and read-write for a read-write request, with
    create, truncate and write-only for a write-only request and read-only
    for any other, in binary mode each time; when the host fails the call
    returns [AVERROR(errno)], and otherwise 0 with the descriptor stored in
    the handle. *)
Theorem ufile_open_spec (h : URLContext) (filename : string) (flags : Z)
    (st : CRT.t) :
  let path := match av_strstart filename "ufile:" with
              | Some rest => rest
              | None => filename
              end in
  let conv := MultiByteToWideChar CP_UTF8 MB_ERR_INVALID_CHARS path (-1) 4096 in
  let access :=
    if negb (Z.land flags URL_RDWR =? 0) then
      Z.lor (Z.lor (Z.lor CRT._O_CREAT CRT._O_TRUNC) CRT._O_RDWR) CRT.O_BINARY
    else if negb (Z.land flags URL_WRONLY =? 0) then
      Z.lor (Z.lor (Z.lor CRT._O_CREAT CRT._O_TRUNC) CRT._O_WRONLY) CRT.O_BINARY
    else Z.lor CRT._O_RDONLY CRT.O_BINARY in
  let opened := _wsopen_s (snd conv) access CRT._SH_DENYNO
                          (Z.lor CRT._S_IREAD CRT._S_IWRITE) st in
  (fst conv <= 0 ->
     ufile_open URL_RDWR URL_WRONLY _wsopen_s h filename flags st
     = (AVERROR CRT.ENOENT, h, st))
  /\ (0 < fst conv -> fst opened = -1 ->
        ufile_open URL_RDWR URL_WRONLY _wsopen_s h filename flags st
        = (AVERROR (CRT.errno (snd opened)), h, snd opened))
  /\ (0 < fst conv -> fst opened <> -1 ->
        ufile_open URL_RDWR URL_WRONLY _wsopen_s h filename flags st
        = (0, {| priv_data := fst opened |}, snd opened)).
Proof.
  cbv zeta. unfold ufile_open.
  set (path := match av_strstart filename "ufile:" with
               | Some rest => rest
               | None => filename
               end).
  assert (Haccess :
    ufile_access URL_RDWR URL_WRONLY flags
    = if negb (Z.land flags URL_RDWR =? 0) then
        Z.lor (Z.lor (Z.lor CRT._O_CREAT CRT._O_TRUNC) CRT._O_RDWR)
              CRT.O_BINARY
      else if negb (Z.land flags URL_WRONLY =? 0) then
        Z.lor (Z.lor (Z.lor CRT._O_CREAT CRT._O_TRUNC) CRT._O_WRONLY)
              CRT.O_BINARY
      else Z.lor CRT._O_RDONLY CRT.O_BINARY).
  { unfold ufile_access, has_flag.
    destruct (negb (Z.land flags URL_RDWR =? 0));
      [|destruct (negb (Z.land flags URL_WRONLY =? 0))]; reflexivity. }
  rewrite Haccess.
  destruct (MultiByteToWideChar CP_UTF8 MB_ERR_INVALID_CHARS path (-1) 4096)
    as [nChars wfilename].
  cbn [fst snd].
  destruct (_wsopen_s wfilename _ CRT._SH_DENYNO
                      (Z.lor CRT._S_IREAD CRT._S_IWRITE) st)
    as [fd st'] eqn:Hopen.
  cbn [fst snd]. repeat split.
  - intros Hn. apply Z.leb_le in Hn. rewrite Hn. reflexivity.
  - intros Hn Hfd. apply Z.leb_gt in Hn. rewrite Hn. subst fd. reflexivity.
  - intros Hn Hfd. apply Z.leb_gt in Hn. apply Z.eqb_neq in Hfd.
    rewrite Hn, Hfd. reflexivity.
Qed.

End ProtocolProperties.

(** * Further properties *)

(** ** [up] *)

Lemma up_char_cases (c : ascii) :
  is_lower (up_char c) = false
  /\ (is_lower c = false -> up_char c = c)
  /\ up_char (up_char c) = up_char c.
Proof.
  destruct c as [[] [] [] [] [] [] [] []]; repeat split; try reflexivity;
    intros Hl; discriminate Hl.
Qed.

(** X1. [up] keeps the length of the text, leaves no ASCII lower-case letter in
    it, changes nothing in a text without such a letter, and is idempotent. *)
Theorem up_spec (str : string) :
  String.length (up str) = String.length str
  /\ has_lower (up str) = false
  /\ (has_lower str = false -> up str = str)
  /\ up (up str) = up str.
Proof.
  induction str as [|c rest [IHlen [IHlow [IHsame IHidem]]]].
  - repeat split.
  - destruct (up_char_cases c) as [Hlow [Hsame Hidem]].
    cbn [up has_lower String.length]. repeat split.
    + rewrite IHlen. reflexivity.
    + rewrite Hlow, IHlow. reflexivity.
    + intros Hn. apply orb_false_iff in Hn. destruct Hn as [Hc Hrest].
      rewrite (Hsame Hc), (IHsame Hrest). reflexivity.
    + rewrite Hidem, IHidem. reflexivity.
Qed.

(** ** The rules of [get_codec_name] *)

Section CodecRules.
Context `{Libav} `{Platform}.

Lemma H264_not_DTS : (CODEC_ID_DTS =? CODEC_ID_H264) = false.
Proof.
  pose proof (distinct_NoDup _ CodecID_distinct) as Hd.
  inversion Hd as [|? ? Hn _]. apply Z.eqb_neq. intros Heq.
  apply Hn. left. exact Heq.
Qed.

(** X2. The DTS rule: with the identity [CODEC_ID_DTS] and a profile name, the
    name is the profile name alone. *)
Theorem get_codec_name_dts (ctx : AVCodecContext) (prof : string) :
  codec_identity ctx = Ok CODEC_ID_DTS ->
  codec_profile_name (avcodec_find_decoder CODEC_ID_DTS) ctx = Some prof ->
  get_codec_name ctx = Ok prof.
Proof.
  intros Hid Hprof. unfold get_codec_name. rewrite Hid.
  cbn [bind]. cbv zeta. rewrite Hprof, H264_not_DTS, Z.eqb_refl.
  reflexivity.
Qed.

(** X3. The H.264 rule for the levels of the standard: with a level between 1
    and 999 that is not [FF_LEVEL_UNKNOWN], the name is "H.264 ", the
    profile, " L", the level divided by ten, a point, and its last digit. *)
Theorem get_codec_name_h264_level (ctx : AVCodecContext) (prof : string) :
  codec_identity ctx = Ok CODEC_ID_H264 ->
  codec_profile_name (avcodec_find_decoder CODEC_ID_H264) ctx = Some prof ->
  0 < level ctx < 1000 ->
  level ctx <> FF_LEVEL_UNKNOWN ->
  get_codec_name ctx =
    Ok ("H.264 " ++ prof ++ " L" ++ string_of_int (level ctx / 10) ++ "."
        ++ string_of_int (level ctx mod 10))%string.
Proof.
  intros Hid Hprof Hrange Hknown.
  rewrite (get_codec_name_h264 ctx prof Hid Hprof) by lia.
  assert (Hz : (level ctx =? 0) = false) by (apply Z.eqb_neq; lia).
  assert (Hu : (level ctx =? FF_LEVEL_UNKNOWN) = false)
    by (apply Z.eqb_neq; exact Hknown).
  assert (Hk : (level ctx <? 1000) = true) by (apply Z.ltb_lt; lia).
  rewrite Hz, Hu, Hk. cbn [negb andb].
  unfold fmt_1f_tenths.
  assert (Hpos : (level ctx <? 0) = false) by (apply Z.ltb_ge; lia).
  rewrite Hpos, Z.abs_eq by lia. reflexivity.
Qed.

(** X4. The two rules that upper-case a name. When no profile rule applies and
    the scan finds no nice name, the name is the upper-cased name of the
    decoder if there is one, and otherwise the upper-cased codec name of
    the context if that is not empty; it has no ASCII lower-case letter. *)
Theorem get_codec_name_upper (ctx : AVCodecContext) (id0 : CodecID) :
  codec_identity ctx = Ok id0 ->
  codec_profile_name (avcodec_find_decoder id0) ctx = None
  \/ (id0 <> CODEC_ID_H264 /\ id0 <> CODEC_ID_DTS) ->
  snd (nice_name_scan id0) = None ->
  (avcodec_find_decoder id0 = None -> codec_name ctx <> ""%string) ->
  let source := match avcodec_find_decoder id0 with
                | Some c => AVCodec.name c
                | None => codec_name ctx
                end in
  get_codec_name ctx = Ok (up source)
  /\ has_lower (up source) = false
  /\ String.length (up source) = String.length source.
Proof.
  intros Hid Hrule Hscan Hname source.
  destruct (up_spec source) as [Hlen [Hlow _]].
  split; [|split; assumption].
  unfold get_codec_name. rewrite Hid. cbn [bind]. cbv zeta. rewrite Hscan.
  assert (Hrest :
    match avcodec_find_decoder id0 with
    | Some c => Ok (up (AVCodec.name c))
    | None =>
        if negb (String.eqb (codec_name ctx) "")
        then Ok (up (codec_name ctx))
        else
          let tag := av_get_codec_tag_string (codec_tag ctx) in
          buf <- sprintf_s 32 ("0x" ++ fmt_04X (codec_tag ctx))%string ;;
          Ok (tag ++ " / " ++ buf)%string
    end = Ok (up source)).
  { subst source. destruct (avcodec_find_decoder id0); [reflexivity|].
    specialize (Hname eq_refl). apply String.eqb_neq in Hname.
    rewrite Hname. reflexivity. }
  destruct Hrule as [Hprof | [H264 HDTS]].
  - rewrite Hprof.
    destruct (id0 =? CODEC_ID_H264), (id0 =? CODEC_ID_DTS); exact Hrest.
  - apply Z.eqb_neq in H264. apply Z.eqb_neq in HDTS. rewrite H264, HDTS.
    destruct (codec_profile_name (avcodec_find_decoder id0) ctx); exact Hrest.
Qed.


(** X6. For an identity of the table the scan reads elements of the array only,
    and its result is the name of the entry. *)
Theorem nice_name_scan_in_bounds (e : s_codec_names) :
  In e nice_codec_names ->
  Forall (fun i => (i < List.length nice_codec_names)%nat)
         (fst (nice_name_scan (id e)))
  /\ snd (nice_name_scan (id e)) = name e.
Proof.
  intros Hin. destruct (nice_name_scan_found e Hin) as [k [Hk Hscan]].
  rewrite Hscan, nice_codec_names_length. split; [|reflexivity].
  apply Forall_forall. intros i Hi. cbn [fst] in Hi.
  apply in_seq in Hi. lia.
Qed.

(** X7. What the read past the end of the table does to the name. When the
    identity is not in the table and an element behind the table, within
    the bound of the scan, is the first to hold it, a context with no
    profile name gets the name stored in that element. *)
Theorem get_codec_name_beyond_table (ctx : AVCodecContext) (id0 : CodecID)
    (k : nat) (leftover : string) :
  codec_identity ctx = Ok id0 ->
  codec_profile_name (avcodec_find_decoder id0) ctx = None ->
  ~ In id0 (map id nice_codec_names) ->
  (forall j, (j < k)%nat -> id (beyond_nice_codec_names j) <> id0) ->
  beyond_nice_codec_names k = {| id := id0; name := Some leftover |} ->
  (List.length nice_codec_names + k < sizeof_nice_codec_names)%nat ->
  get_codec_name ctx = Ok leftover.
Proof.
  intros Hid Hprof Hnot Hbefore Hat Hbound.
  rewrite nice_codec_names_length in Hbound.
  assert (Hscan : snd (nice_name_scan id0) = Some leftover).
  { unfold nice_name_scan.
    rewrite (nice_name_loop_hit id0 (13 + k) 0 sizeof_nice_codec_names).
    - cbn [snd]. rewrite nice_codec_names_at_beyond by (simpl; lia).
      replace (0 + (13 + k) - 13)%nat with k by lia.
      rewrite Hat. reflexivity.
    - intros j Hj. destruct (Nat.lt_ge_cases j 13) as [Hin|Hout].
      + intros Heq. apply Hnot. rewrite <- Heq.
        apply nice_codec_names_at_id, Hin.
      + rewrite (nice_codec_names_at_beyond _ Hout). apply Hbefore. lia.
    - rewrite nice_codec_names_at_beyond by (simpl; lia).
      replace (0 + (13 + k) - 13)%nat with k by lia.
      rewrite Hat. reflexivity.
    - exact Hbound. }
  unfold get_codec_name. rewrite Hid. cbn [bind]. cbv zeta.
  rewrite Hprof, Hscan.
  destruct (id0 =? CODEC_ID_H264), (id0 =? CODEC_ID_DTS); reflexivity.
Qed.

End CodecRules.

(** ** The language of a stream *)

Section LanguageResult.
Context `{Libav}.

Lemma stream_language_candidate_cases (pStream : AVStream) :
  match stream_language_candidate pStream with
  | Some lang =>
      av_metadata_get (metadata pStream) "language" = Some lang
      \/ (av_metadata_get (metadata pStream) "language" = None
          /\ language pStream = Some lang /\ lang <> ""%string)
  | None =>
      av_metadata_get (metadata pStream) "language" = None
      /\ (language pStream = None \/ language pStream = Some ""%string)
  end.
Proof.
  unfold stream_language_candidate.
  destruct (av_metadata_get (metadata pStream) "language") as [value|];
    [left; reflexivity|].
  destruct (language pStream) as [[|c rest]|]; cbn.
  - split; [reflexivity | right; reflexivity].
  - right. repeat split. discriminate.
  - split; [reflexivity | left; reflexivity].
Qed.

(** X8. What [get_stream_language] can return. A language it returns is the
    value of the "language" metadata entry or, without such an entry, the
    non-empty language field of the stream, and never starts with "und";
    it returns NULL only for a language that starts with "und"; and it
    traps only when there is neither an entry nor a non-empty field. *)
Theorem get_stream_language_result (pStream : AVStream) :
  (forall lang,
     get_stream_language pStream = Ok (Some lang) ->
     String.prefix "und" lang = false
     /\ (av_metadata_get (metadata pStream) "language" = Some lang
         \/ (av_metadata_get (metadata pStream) "language" = None
             /\ language pStream = Some lang /\ lang <> ""%string)))
  /\ (get_stream_language pStream = Ok None ->
      exists lang, stream_language_candidate pStream = Some lang
                   /\ String.prefix "und" lang = true)
  /\ (forall f,
        get_stream_language pStream = Fault f ->
        f = NullDereference
        /\ av_metadata_get (metadata pStream) "language" = None
        /\ (language pStream = None \/ language pStream = Some ""%string)).
Proof.
  pose proof (stream_language_candidate_cases pStream) as Hcases.
  destruct (stream_language_candidate pStream) as [cand|] eqn:Hc.
  - rewrite (get_stream_language_candidate _ _ Hc).
    destruct (String.prefix "und" cand) eqn:Hp; split; [|split| |split].
    + intros lang Hr. discriminate Hr.
    + intros _. exists cand. split; [reflexivity | exact Hp].
    + intros f Hr. discriminate Hr.
    + intros lang Hr. injection Hr as <-. split; [exact Hp | exact Hcases].
    + intros Hr. discriminate Hr.
    + intros f Hr. discriminate Hr.
  - unfold get_stream_language. rewrite Hc. cbn.
    split; [|split].
    + intros lang Hr. discriminate Hr.
    + intros Hr. discriminate Hr.
    + intros f Hr. injection Hr as <-. split; [reflexivity | exact Hcases].
Qed.

End LanguageResult.

(** ** The text of a description *)

Lemma append_assoc (s t u : string) :
  ((s ++ t) ++ u = s ++ (t ++ u))%string.
Proof. induction s as [|c s IH]; simpl; congruence. Qed.

Lemma prefix_append (p rest : string) : String.prefix p (p ++ rest) = true.
Proof.
  induction p as [|c p IH].
  - destruct rest; reflexivity.
  - change (String c p ++ rest)%string with (String c (p ++ rest)).
    rewrite prefix_step, Ascii.eqb_refl. exact IH.
Qed.

Lemma Ok_prefix (p rest info : string) :
  Ok (p ++ rest)%string = Ok info -> String.prefix p info = true.
Proof. intros Heq. injection Heq as <-. apply prefix_append. Qed.

Section DescribeText.
Context `{Libav} `{Helpers} `{Platform}.

(** X9. Every description starts with the tag of the media type of its stream:
    "V: ", "A: ", "S: ", or "Unknown: Stream #" for any other type, where
    the index of the stream is all that follows. *)
Theorem describe_text_tag (pStream : AVStream) (info : string) :
  describe_text pStream = Ok info ->
  String.prefix (type_tag (codec_type (codec pStream))) info = true
  /\ (type_tag (codec_type (codec pStream)) = "Unknown: Stream #"%string ->
      info = ("Unknown: Stream #" ++ string_of_int (index pStream))%string).
Proof.
  unfold describe_text, bind.
  destruct (get_codec_name (codec pStream)); [|discriminate].
  destruct (stream_language_names pStream) as [[lang sLanguage]|];
    [|discriminate].
  destruct (codec_type (codec pStream));
    try (intros Heq; split;
         [exact (Ok_prefix _ _ _ Heq)
         | first [discriminate | injection Heq as <-; reflexivity]]).
  destruct (negb (pix_fmt (codec pStream) =? PIX_FMT_NONE));
    [destruct (avcodec_get_pix_fmt_name (pix_fmt (codec pStream)))|];
    intros Heq; try discriminate Heq;
    (split; [exact (Ok_prefix _ _ _ Heq) | discriminate]).
Qed.

(** X10. The description of a subtitle stream. A title and a language give
    "title [code] (codec)"; one of them alone gives "title (codec)" or
    "name (codec)", the name being the display name of the language or its
    code; neither gives "codec" with no parenthesis. The flags follow:
    " [forced]", " [hearing impaired]", both as " [forced, hearing
    impaired]", or nothing. *)
Theorem describe_text_subtitle (pStream : AVStream) (codec_name : string)
    (lang : cstr) (sLanguage : string) :
  codec_type (codec pStream) = AVMEDIA_TYPE_SUBTITLE ->
  get_codec_name (codec pStream) = Ok codec_name ->
  stream_language_names pStream = Ok (lang, sLanguage) ->
  let body :=
    match av_metadata_get (metadata pStream) "title", lang with
    | Some t, Some l => (t ++ " [" ++ l ++ "] (" ++ codec_name ++ ")")%string
    | Some t, None => (t ++ " (" ++ codec_name ++ ")")%string
    | None, Some _ => (sLanguage ++ " (" ++ codec_name ++ ")")%string
    | None, None => codec_name
    end in
  let flags :=
    match has_flag (disposition pStream) AV_DISPOSITION_FORCED,
          has_flag (disposition pStream) AV_DISPOSITION_HEARING_IMPAIRED with
    | true, true => " [forced, hearing impaired]"%string
    | true, false => " [forced]"%string
    | false, true => " [hearing impaired]"%string
    | false, false => ""%string
    end in
  describe_text pStream = Ok ("S: " ++ body ++ flags)%string.
Proof.
  intros Htype Hcodec Hnames body flags.
  unfold describe_text. rewrite Hcodec, Hnames, Htype. cbn [bind].
  f_equal. f_equal. subst body flags.
  destruct (has_flag (disposition pStream) AV_DISPOSITION_FORCED),
           (has_flag (disposition pStream) AV_DISPOSITION_HEARING_IMPAIRED);
    destruct (av_metadata_get (metadata pStream) "title") as [t|],
             lang as [l|];
    cbn [title_language closing_tag is_null negb orb];
    rewrite ?append_assoc; reflexivity.
Qed.

(** X11. The two results of [lavf_describe_stream]. A NULL stream or a NULL
    output pointer gives [E_POINTER] with no output, before the stream is
    looked at; a call that returns with both pointers set gives [S_OK];
    no other [HRESULT] is returned. *)
Theorem lavf_describe_stream_hresult (pStream : option AVStream)
    (ppszName : bool) :
  (pStream = None \/ ppszName = false ->
   lavf_describe_stream pStream ppszName = Ok (E_POINTER, None))
  /\ (forall hr out,
        lavf_describe_stream pStream ppszName = Ok (hr, out) ->
        (hr = E_POINTER /\ out = None
         /\ (pStream = None \/ ppszName = false))
        \/ (hr = S_OK /\ pStream <> None /\ ppszName = true)).
Proof.
  split; [apply lavf_describe_stream_null|].
  intros hr out. unfold lavf_describe_stream.
  destruct pStream as [stream|].
  - destruct ppszName; cbn [negb].
    + destruct (describe_text stream) as [info|]; cbn [bind];
        [|discriminate].
      cbv zeta.
      destruct (CoTaskMemAlloc ((strlen info + 1) * sizeof_WCHAR));
        intros Hr; injection Hr as <- <-; right;
        repeat split; discriminate.
    + intros Hr. injection Hr as <- <-. left. repeat split. right. reflexivity.
  - intros Hr. injection Hr as <- <-. left. repeat split. left. reflexivity.
Qed.

(** X12. A stream with neither a "language" metadata entry nor a non-empty
    language field cannot be described, whatever its media type: the call
    traps in [get_stream_language], unless [get_codec_name] has failed
    before it. *)
Theorem lavf_describe_stream_no_language (pStream : AVStream) :
  stream_language_candidate pStream = None ->
  lavf_describe_stream (Some pStream) true
  = Fault match get_codec_name (codec pStream) with
          | Ok _ => NullDereference
          | Fault f => f
          end.
Proof.
  intros Hc. unfold lavf_describe_stream, describe_text. cbn [negb].
  destruct (get_codec_name (codec pStream)); cbn [bind]; [|reflexivity].
  unfold stream_language_names, get_stream_language. rewrite Hc.
  reflexivity.
Qed.

End DescribeText.

(** ** Opening a [ufile:] path *)

Lemma av_strstart_app (pfx rest : string) :
  av_strstart (pfx ++ rest) pfx = Some rest.
Proof.
  induction pfx as [|c pfx IH]; simpl.
  - destruct rest; reflexivity.
  - rewrite Ascii.eqb_refl. exact IH.
Qed.

Section Opening.
Context `{Platform}.
Variables URL_RDWR URL_WRONLY : Z.
Variable _wsopen_s : list Z -> Z -> Z -> Z -> CRT.t -> Z * CRT.t.

(** X14. The scheme is optional: a path that does not itself start with
    "ufile:" is opened in the same way with the scheme in front of it and
    without. *)
Theorem ufile_open_scheme_optional (h : URLContext) (path : string)
    (flags : Z) (st : CRT.t) :
  av_strstart path "ufile:" = None ->
  ufile_open URL_RDWR URL_WRONLY _wsopen_s h ("ufile:" ++ path) flags st
  = ufile_open URL_RDWR URL_WRONLY _wsopen_s h path flags st.
Proof.
  intros Hplain. unfold ufile_open.
  rewrite (av_strstart_app "ufile:" path), Hplain. reflexivity.
Qed.

(** X15. The [access] of every request asks for binary mode; it asks to create
    and to truncate the file exactly when the request has a bit of
    [URL_RDWR] or of [URL_WRONLY], so a request with neither opens
    read-only and creates nothing; and a request with bits of both opens
    read-write. *)
Theorem ufile_access_bits (flags : Z) :
  let access := ufile_access URL_RDWR URL_WRONLY flags in
  let rdwr := negb (Z.land flags URL_RDWR =? 0) in
  let wronly := negb (Z.land flags URL_WRONLY =? 0) in
  Z.land access CRT.O_BINARY = CRT.O_BINARY
  /\ Z.land access CRT._O_CREAT
     = (if rdwr || wronly then CRT._O_CREAT else 0)
  /\ Z.land access CRT._O_TRUNC
     = (if rdwr || wronly then CRT._O_TRUNC else 0)
  /\ Z.land access (Z.lor CRT._O_WRONLY CRT._O_RDWR)
     = (if rdwr then CRT._O_RDWR
        else if wronly then CRT._O_WRONLY else CRT._O_RDONLY).
Proof.
  cbv zeta. unfold ufile_access, has_flag.
  destruct (negb (Z.land flags URL_RDWR =? 0)),
           (negb (Z.land flags URL_WRONLY =? 0));
    repeat split.
Qed.

(** X16. After a successful open the handle holds the descriptor of the host:
    [ufile_get_handle] returns it, and reading and closing through the
    handle are reading and closing that descriptor. *)
Theorem ufile_open_handle (h : URLContext) (filename : string) (flags : Z)
    (st : CRT.t) :
  let path := match av_strstart filename "ufile:" with
              | Some rest => rest
              | None => filename
              end in
  let conv := MultiByteToWideChar CP_UTF8 MB_ERR_INVALID_CHARS path (-1) 4096 in
  let opened := _wsopen_s (snd conv) (ufile_access URL_RDWR URL_WRONLY flags)
                          CRT._SH_DENYNO (Z.lor CRT._S_IREAD CRT._S_IWRITE)
                          st in
  0 < fst conv ->
  fst opened <> -1 ->
  - 2 ^ 31 <= fst opened < 2 ^ 31 ->
  let '(ret, h', st') :=
    ufile_open URL_RDWR URL_WRONLY _wsopen_s h filename flags st in
  ret = 0
  /\ st' = snd opened
  /\ ufile_get_handle h' = fst opened
  /\ (forall size, ufile_read h' size st' = CRT._read (fst opened) size st')
  /\ ufile_close h' st' = CRT._close (fst opened) st'.
Proof.
  cbv zeta. unfold ufile_open.
  destruct (MultiByteToWideChar CP_UTF8 MB_ERR_INVALID_CHARS _ (-1) 4096)
    as [nChars wfilename].
  cbn [fst snd].
  destruct (_wsopen_s wfilename _ CRT._SH_DENYNO
                      (Z.lor CRT._S_IREAD CRT._S_IWRITE) st)
    as [fd st'].
  cbn [fst snd]. intros Hn Hfd Hint.
  apply Z.leb_gt in Hn. apply Z.eqb_neq in Hfd. rewrite Hn, Hfd.
  assert (Hh : handle_fd {| priv_data := fd |} = fd)
    by (apply int32_small; exact Hint).
  unfold ufile_get_handle, ufile_read, ufile_close. rewrite Hh.
  repeat split.
Qed.

End Opening.

(** ** The code on the sample environment

    From here on the environment is [Sample]: the runs below evaluate the
    definitions above on concrete streams, contexts and descriptors. *)

#[local] Existing Instance Sample.libav.
#[local] Existing Instance Sample.helpers.
#[local] Existing Instance Sample.platform.

(** The two audio streams of the specification: 48000 Hz, 2 channels and 16
    bits give 1536000; with no known bits per sample the declared 192000. *)
Lemma get_bit_rate_by_type_witness :
  get_bit_rate (Sample.with_audio
                  (Sample.codec_context AVMEDIA_TYPE_AUDIO 0x10000)
                  48000 2 192000) = 1536000
  /\ get_bit_rate (Sample.with_audio
                     (Sample.codec_context AVMEDIA_TYPE_AUDIO 0x15003)
                     48000 2 192000) = 192000.
Proof.
  split.
  - pose proof (get_bit_rate_by_type
                  (Sample.with_audio
                     (Sample.codec_context AVMEDIA_TYPE_AUDIO 0x10000)
                     48000 2 192000)) as Hs.
    lazy beta iota zeta
         delta [codec_type Sample.with_audio Sample.codec_context] in Hs.
    destruct Hs as [_ Hp].
    destruct Hp as [_ Hx]; [intros E; vm_compute in E; discriminate E|].
    refine (eq_trans (Hx _) _); [|reflexivity].
    vm_compute. split; [discriminate | reflexivity].
  - pose proof (get_bit_rate_by_type
                  (Sample.with_audio
                     (Sample.codec_context AVMEDIA_TYPE_AUDIO 0x15003)
                     48000 2 192000)) as Hs.
    lazy beta iota zeta
         delta [codec_type Sample.with_audio Sample.codec_context] in Hs.
    destruct Hs as [Hz _]. apply Hz. reflexivity.
Defined.

(** C7 as the specification states it fails: an audio stream of 2^30 Hz, 2
    channels and 16 bits per sample has the product 2^35, and the [int]
    that [get_bit_rate] returns is 0. *)
Lemma get_bit_rate_product_overflows :
  ~ (forall ctx : AVCodecContext,
       codec_type ctx = AVMEDIA_TYPE_AUDIO ->
       av_get_bits_per_sample (codec_id ctx) <> 0 ->
       get_bit_rate ctx =
         sample_rate ctx * channels ctx
         * av_get_bits_per_sample (codec_id ctx)).
Proof.
  intros Hclaim.
  specialize (Hclaim (Sample.with_audio
                        (Sample.codec_context AVMEDIA_TYPE_AUDIO 0x10000)
                        (2 ^ 30) 2 192000)
                     eq_refl ltac:(discriminate)).
  vm_compute in Hclaim. discriminate.
Qed.

Lemma get_stream_language_no_candidate_witness :
  get_stream_language
    (Sample.stream (Sample.codec_context AVMEDIA_TYPE_VIDEO 2) [] None)
  = Fault NullDereference.
Proof.
  apply (get_stream_language_no_candidate
           (Sample.stream (Sample.codec_context AVMEDIA_TYPE_VIDEO 2) [] None)).
  - reflexivity.
  - left. reflexivity.
Defined.

Lemma stream_language_selection_witness :
  stream_language_names
    (Sample.stream (Sample.codec_context AVMEDIA_TYPE_VIDEO 2)
                   [("language", "fre")]%string (Some "ger"%string))
  = Ok (Some "fre"%string, "fre"%string)
  /\ get_stream_language
       (Sample.stream (Sample.codec_context AVMEDIA_TYPE_VIDEO 2)
                      [("language", "und")]%string (Some "ger"%string))
     = Ok None.
Proof.
  split.
  - pose proof (stream_language_selection
                  (Sample.stream (Sample.codec_context AVMEDIA_TYPE_VIDEO 2)
                                 [("language", "fre")]%string
                                 (Some "ger"%string))) as [Hm [_ [_ Hraw]]].
    destruct (Hraw "fre"%string (Hm _ eq_refl) eq_refl) as [_ Hnames].
    destruct (Hnames eq_refl) as [Hn _]. exact Hn.
  - pose proof (stream_language_selection
                  (Sample.stream (Sample.codec_context AVMEDIA_TYPE_VIDEO 2)
                                 [("language", "und")]%string
                                 (Some "ger"%string))) as [Hm [Hund _]].
    apply Hund. apply Hm. reflexivity.
Defined.

(** C8 as the specification states it fails: the language "undetermined" is
    not "und" and has no display name, yet it is dropped, and the
    description carries no language. *)
Lemma stream_language_und_prefix :
  let pStream := Sample.stream (Sample.codec_context AVMEDIA_TYPE_VIDEO 2)
                               [("language", "undetermined")]%string None in
  stream_language_candidate pStream = Some "undetermined"%string
  /\ "undetermined"%string <> "und"%string
  /\ ProbeLangForLanguage "undetermined" = ""%string
  /\ get_stream_language pStream = Ok None
  /\ stream_language_names pStream = Ok (None, ""%string)
  /\ describe_text pStream = Ok "V: MPEG-2"%string.
Proof.
  cbv zeta. repeat split; try (vm_compute; reflexivity). discriminate.
Qed.

Lemma nice_name_scan_reads_past_end_witness :
  In 13%nat (fst (nice_name_scan CODEC_ID_H264))
  /\ nth_error nice_codec_names 13 = None.
Proof.
  pose proof (nice_name_scan_reads_past_end CODEC_ID_H264) as Hs.
  destruct Hs as [_ Hs].
  - vm_compute. intuition discriminate.
  - exact Hs.
Defined.

(** The two names of the specification: profile "High" with level 41, and
    with level 0. *)
Example get_codec_name_h264_high_41 :
  get_codec_name
    (Sample.with_profile (Sample.codec_context AVMEDIA_TYPE_VIDEO 28) 100 41)
  = Ok "H.264 High L4.1"%string
  /\ get_codec_name
       (Sample.with_profile (Sample.codec_context AVMEDIA_TYPE_VIDEO 28) 100 0)
     = Ok "H.264 High"%string.
Proof.
  split.
  - rewrite (get_codec_name_h264 _ "High"%string);
      [reflexivity | reflexivity | reflexivity | vm_compute; reflexivity].
  - rewrite (get_codec_name_h264 _ "High"%string);
      [reflexivity | reflexivity | reflexivity | vm_compute; reflexivity].
Qed.

Lemma get_codec_name_h264_negative_level_witness :
  get_codec_name
    (Sample.with_profile (Sample.codec_context AVMEDIA_TYPE_VIDEO 28)
                         100 (-100))
  = Fault InvalidParameter.
Proof.
  apply (get_codec_name_h264_negative_level _ "High"%string).
  - reflexivity.
  - reflexivity.
  - reflexivity.
  - vm_compute. discriminate.
Defined.

Lemma get_codec_name_nice_witness :
  get_codec_name (Sample.codec_context AVMEDIA_TYPE_AUDIO 0x15003)
  = Ok "AC-3"%string.
Proof.
  destruct (get_codec_name_nice
              {| id := CODEC_ID_AC3; name := Some "AC-3"%string |}
              (Sample.codec_context AVMEDIA_TYPE_AUDIO 0x15003))
    as [[nice [Hname Hcodec]] _].
  - simpl. tauto.
  - reflexivity.
  - reflexivity.
  - simpl in Hname. injection Hname as <-. exact Hcodec.
Defined.

(** The DTS rule of the specification: the profile alone. *)
Example get_codec_name_dts_hd_ma :
  get_codec_name
    (Sample.with_profile (Sample.codec_context AVMEDIA_TYPE_AUDIO 0x15004)
                         60 0)
  = Ok "DTS-HD MA"%string.
Proof. vm_compute. reflexivity. Qed.

Lemma get_codec_name_tag_witness :
  get_codec_name
    (Sample.with_tag (Sample.codec_context AVMEDIA_TYPE_VIDEO 999) 0x34363248)
  = Ok "H264 / 0x34363248"%string.
Proof.
  refine (eq_trans
            (proj1 (get_codec_name_tag
                      (Sample.with_tag
                         (Sample.codec_context AVMEDIA_TYPE_VIDEO 999)
                         0x34363248) 999 _ _ _ _ _)) _).
  - reflexivity.
  - reflexivity.
  - vm_compute. reflexivity.
  - reflexivity.
  - vm_compute. split; [discriminate | reflexivity].
  - vm_compute. reflexivity.
Defined.

(** C10 as the specification states it fails: the tag 0x34363248 of "H264"
    is written with eight hexadecimal digits, so the name is not the tag
    string, " / 0x" and four digits. *)
Lemma get_codec_name_tag_eight_digits :
  let ctx := Sample.with_tag (Sample.codec_context AVMEDIA_TYPE_VIDEO 999)
                             0x34363248 in
  get_codec_name ctx = Ok "H264 / 0x34363248"%string
  /\ ~ (exists digits : string,
          String.length digits = 4%nat
          /\ get_codec_name ctx =
               Ok (av_get_codec_tag_string (codec_tag ctx) ++ " / 0x"
                   ++ digits)%string).
Proof.
  cbv zeta. split; [vm_compute; reflexivity|].
  intros [digits [Hlen Heq]].
  vm_compute in Heq. inversion Heq as [Hd]. rewrite <- Hd in Hlen.
  discriminate Hlen.
Qed.

Lemma lavf_describe_stream_allocation_failure_witness :
  @lavf_describe_stream Sample.libav Sample.helpers Sample.out_of_memory
    (Some (Sample.stream (Sample.codec_context AVMEDIA_TYPE_VIDEO 2)
                         [("language", "fre")]%string None))
    true
  = Ok (S_OK, None).
Proof.
  apply (@lavf_describe_stream_allocation_failure
           Sample.libav Sample.helpers Sample.out_of_memory
           _ "V: fre (MPEG-2)"%string).
  - vm_compute. reflexivity.
  - reflexivity.
Defined.

(** A handle on a file of five bytes with two of them read: the size query
    returns 5, the read after it continues with the third byte, and a seek
    by one from the current position returns 3. *)
Lemma ufile_seek_spec_witness :
  let h := {| priv_data := 3 |} in
  let sized := ufile_seek Sample.AVSEEK_SIZE h 0 Sample.AVSEEK_SIZE
                          Sample.five_bytes in
  fst sized = 5
  /\ fst (ufile_read h 2 (snd sized)) = (2, [30; 40])
  /\ fst (ufile_seek Sample.AVSEEK_SIZE h 1 CRT.SEEK_CUR Sample.five_bytes) = 3.
Proof.
  cbv zeta.
  pose proof (ufile_seek_spec Sample.AVSEEK_SIZE {| priv_data := 3 |} 0
                              Sample.AVSEEK_SIZE Sample.five_bytes)
    as [Hsize _].
  specialize (Hsize eq_refl).
  pose proof (ufile_seek_spec Sample.AVSEEK_SIZE {| priv_data := 3 |} 1
                              CRT.SEEK_CUR Sample.five_bytes)
    as [_ Hseek].
  rewrite Hseek by discriminate.
  destruct (ufile_seek Sample.AVSEEK_SIZE {| priv_data := 3 |} 0
                       Sample.AVSEEK_SIZE Sample.five_bytes) as [ret st'].
  destruct Hsize as [_ [Hret _]].
  change (ret = 5 /\ st' = Sample.five_bytes) in Hret.
  destruct Hret as [-> ->].
  repeat split.
Defined.

(** The three outcomes of [ufile_open] on a host without files: a path that
    cannot be converted, a read-only request for a file that is not there,
    and a read-write request that creates the file. *)
Lemma ufile_open_spec_witness :
  let h := {| priv_data := 0 |} in
  let open := ufile_open Sample.URL_RDWR Sample.URL_WRONLY Sample.wsopen h in
  open Sample.bad_path 0 Sample.no_files = (-2, h, Sample.no_files)
  /\ open "ufile:movie.mkv"%string 0 Sample.no_files
     = (-2, h, CRT.fail CRT.ENOENT Sample.no_files)
  /\ fst (open "ufile:movie.mkv"%string Sample.URL_RDWR Sample.no_files)
     = (0, {| priv_data := 3 |}).
Proof.
  cbv zeta. split; [|split].
  - pose proof (ufile_open_spec Sample.URL_RDWR Sample.URL_WRONLY
                  Sample.wsopen {| priv_data := 0 |} Sample.bad_path 0
                  Sample.no_files) as Hs.
    cbv zeta in Hs. destruct Hs as [Hconv _].
    apply Hconv. vm_compute. discriminate.
  - pose proof (ufile_open_spec Sample.URL_RDWR Sample.URL_WRONLY
                  Sample.wsopen {| priv_data := 0 |} "ufile:movie.mkv"%string
                  0 Sample.no_files) as Hs.
    cbv zeta in Hs. destruct Hs as [_ [Hfail _]].
    refine (eq_trans (Hfail _ _) _);
      [vm_compute; reflexivity | vm_compute; reflexivity | reflexivity].
  - pose proof (ufile_open_spec Sample.URL_RDWR Sample.URL_WRONLY
                  Sample.wsopen {| priv_data := 0 |} "ufile:movie.mkv"%string
                  Sample.URL_RDWR Sample.no_files) as Hs.
    cbv zeta in Hs. destruct Hs as [_ [_ Hok]].
    rewrite Hok; [reflexivity | vm_compute; reflexivity
                  | vm_compute; discriminate].
Defined.

(** ** The further properties on the sample environment *)

Lemma up_spec_witness :
  up (up "pcm_s16le") = "PCM_S16LE"%string /\ up "AC-3" = "AC-3"%string.
Proof.
  destruct (up_spec "pcm_s16le") as [_ [_ [_ Hidem]]].
  destruct (up_spec "AC-3") as [_ [_ [Hsame _]]].
  split.
  - rewrite Hidem. reflexivity.
  - apply Hsame. reflexivity.
Defined.

Lemma get_codec_name_dts_witness :
  get_codec_name
    (Sample.with_profile (Sample.codec_context AVMEDIA_TYPE_AUDIO 0x15004)
                         60 0)
  = Ok "DTS-HD MA"%string.
Proof.
  apply (get_codec_name_dts _ "DTS-HD MA"%string); reflexivity.
Defined.

Lemma get_codec_name_h264_level_witness :
  get_codec_name
    (Sample.with_profile (Sample.codec_context AVMEDIA_TYPE_VIDEO 28) 100 41)
  = Ok "H.264 High L4.1"%string.
Proof.
  refine (eq_trans (get_codec_name_h264_level _ "High"%string _ _ _ _) _).
  - reflexivity.
  - reflexivity.
  - vm_compute. split; reflexivity.
  - vm_compute. discriminate.
  - reflexivity.
Defined.

Lemma get_codec_name_upper_witness :
  get_codec_name (Sample.codec_context AVMEDIA_TYPE_AUDIO 0x10000)
  = Ok "PCM_S16LE"%string.
Proof.
  refine (proj1 (get_codec_name_upper
                   (Sample.codec_context AVMEDIA_TYPE_AUDIO 0x10000)
                   0x10000 _ _ _ _)).
  - reflexivity.
  - left. reflexivity.
  - vm_compute. reflexivity.
  - intros Hnone. vm_compute in Hnone. discriminate Hnone.
Defined.


Lemma nice_name_scan_in_bounds_witness :
  Forall (fun i => (i < 13)%nat) (fst (nice_name_scan CODEC_ID_AC3))
  /\ snd (nice_name_scan CODEC_ID_AC3) = Some "AC-3"%string.
Proof.
  apply (nice_name_scan_in_bounds
           {| id := CODEC_ID_AC3; name := Some "AC-3"%string |}).
  simpl. tauto.
Defined.

Lemma get_codec_name_beyond_table_witness :
  @get_codec_name Sample.libav SampleMore.leftover
    (Sample.codec_context AVMEDIA_TYPE_VIDEO 999)
  = Ok "leftover"%string.
Proof.
  apply (@get_codec_name_beyond_table Sample.libav SampleMore.leftover
           (Sample.codec_context AVMEDIA_TYPE_VIDEO 999) 999 2).
  - reflexivity.
  - reflexivity.
  - vm_compute. intuition discriminate.
  - intros j Hj. destruct j as [|[|j]]; [discriminate | discriminate | lia].
  - reflexivity.
  - unfold sizeof_nice_codec_names. simpl. lia.
Defined.

Lemma get_stream_language_result_witness :
  String.prefix "und" "ger" = false
  /\ (av_metadata_get
        (metadata (Sample.stream (Sample.codec_context AVMEDIA_TYPE_VIDEO 2)
                                 [] (Some "ger"%string)))
        "language" = Some "ger"%string
      \/ (av_metadata_get
            (metadata (Sample.stream
                         (Sample.codec_context AVMEDIA_TYPE_VIDEO 2)
                         [] (Some "ger"%string)))
            "language" = None
          /\ language (Sample.stream
                         (Sample.codec_context AVMEDIA_TYPE_VIDEO 2)
                         [] (Some "ger"%string)) = Some "ger"%string
          /\ "ger"%string <> ""%string)).
Proof.
  destruct (get_stream_language_result
              (Sample.stream (Sample.codec_context AVMEDIA_TYPE_VIDEO 2)
                             [] (Some "ger"%string))) as [Hsome _].
  apply Hsome. reflexivity.
Defined.

Lemma describe_text_tag_witness :
  String.prefix "V: " "V: fre (MPEG-2)" = true.
Proof.
  apply (describe_text_tag
           (Sample.stream (Sample.codec_context AVMEDIA_TYPE_VIDEO 2)
                          [("language", "fre")]%string None)).
  vm_compute. reflexivity.
Defined.

Lemma describe_text_subtitle_witness :
  describe_text
    (SampleMore.flagged_stream
       (Sample.codec_context AVMEDIA_TYPE_SUBTITLE 0x17006)
       [("title", "Signs"); ("language", "eng")]%string 0xC0)
  = Ok "S: Signs [eng] (PGS) [forced, hearing impaired]"%string.
Proof.
  refine (eq_trans
            (describe_text_subtitle
               (SampleMore.flagged_stream
                  (Sample.codec_context AVMEDIA_TYPE_SUBTITLE 0x17006)
                  [("title", "Signs"); ("language", "eng")]%string 0xC0)
               "PGS"%string (Some "eng"%string) "English"%string _ _ _) _).
  - reflexivity.
  - vm_compute. reflexivity.
  - vm_compute. reflexivity.
  - vm_compute. reflexivity.
Defined.

Lemma lavf_describe_stream_hresult_witness :
  lavf_describe_stream None true = Ok (E_POINTER, None)
  /\ lavf_describe_stream
       (Some (Sample.stream (Sample.codec_context AVMEDIA_TYPE_VIDEO 2)
                            [] None))
       false
     = Ok (E_POINTER, None).
Proof.
  split.
  - apply (lavf_describe_stream_hresult None true). left. reflexivity.
  - apply (lavf_describe_stream_hresult
             (Some (Sample.stream (Sample.codec_context AVMEDIA_TYPE_VIDEO 2)
                                  [] None))
             false).
    right. reflexivity.
Defined.

Lemma lavf_describe_stream_no_language_witness :
  lavf_describe_stream
    (Some (Sample.stream (Sample.codec_context AVMEDIA_TYPE_DATA 2) [] None))
    true
  = Fault NullDereference.
Proof.
  refine (eq_trans
            (lavf_describe_stream_no_language
               (Sample.stream (Sample.codec_context AVMEDIA_TYPE_DATA 2)
                              [] None) _) _).
  - reflexivity.
  - vm_compute. reflexivity.
Defined.

Lemma lavf_describe_stream_allocated_witness :
  lavf_describe_stream
    (Some (Sample.stream (Sample.codec_context AVMEDIA_TYPE_VIDEO 2)
                         [("language", "fre")]%string None))
    true
  = Ok (S_OK,
        Some [86; 58; 32; 102; 114; 101; 32; 40; 77; 80; 69; 71; 45; 50; 41; 0]).
Proof.
  refine (eq_trans
            (proj1 (lavf_describe_stream_allocated
                      (Sample.stream (Sample.codec_context AVMEDIA_TYPE_VIDEO 2)
                                     [("language", "fre")]%string None)
                      "V: fre (MPEG-2)"%string _ _)) _).
  - vm_compute. reflexivity.
  - reflexivity.
  - vm_compute. reflexivity.
Defined.

Lemma ufile_open_scheme_optional_witness :
  ufile_open Sample.URL_RDWR Sample.URL_WRONLY Sample.wsopen
             {| priv_data := 0 |} "ufile:movie.mkv" Sample.URL_RDWR
             Sample.no_files
  = ufile_open Sample.URL_RDWR Sample.URL_WRONLY Sample.wsopen
               {| priv_data := 0 |} "movie.mkv" Sample.URL_RDWR
               Sample.no_files.
Proof.
  apply (ufile_open_scheme_optional Sample.URL_RDWR Sample.URL_WRONLY
           Sample.wsopen {| priv_data := 0 |} "movie.mkv"%string).
  reflexivity.
Defined.

Lemma ufile_open_handle_witness :
  let '(ret, h, st) :=
    ufile_open Sample.URL_RDWR Sample.URL_WRONLY Sample.wsopen
               {| priv_data := 0 |} "ufile:movie.mkv" Sample.URL_RDWR
               Sample.no_files in
  ret = 0 /\ ufile_get_handle h = 3.
Proof.
  pose proof (ufile_open_handle Sample.URL_RDWR Sample.URL_WRONLY
                Sample.wsopen {| priv_data := 0 |} "ufile:movie.mkv"%string
                Sample.URL_RDWR Sample.no_files) as Hs.
  cbv zeta in Hs.
  specialize (Hs ltac:(vm_compute; reflexivity)
                 ltac:(vm_compute; discriminate)
                 ltac:(vm_compute; split; [discriminate | reflexivity])).
  destruct (ufile_open Sample.URL_RDWR Sample.URL_WRONLY Sample.wsopen
                       {| priv_data := 0 |} "ufile:movie.mkv"
                       Sample.URL_RDWR Sample.no_files) as [[ret h] st].
  destruct Hs as [Hret [_ [Hh _]]]. split; [exact Hret | exact Hh].
Defined.
